(** * The job lifecycle client of the AI Financial Modeler front end

    A shallow embedding of the [Home] page component, in its current
    form (src/ai-financial-modeler/frontend/app/layout.tsx, the part
    that starts at "use client") and in its older form that only knows
    the "stocks" and "raw" tabs (src/deploy_helper.bat, likewise): the
    API functions, the submit handler [handleGenerate], the effect that
    polls the job status on a one-second interval, the download and
    export buttons, the M&A consideration inputs and the comparison
    selection.

    React state is a record; the browser (issued [fetch] calls, live
    intervals, console, alerts, saved files) is part of the same record,
    so that every handler is a function from client to client.  Each
    [await] splits a handler in two: the part that runs up to the
    request, and the continuation that is resumed with the reply.  The
    reply is an input of the continuation.  After a handler React
    renders, and the polling effect runs again when one of its
    dependencies changed ([commit]).

    Numbers that the page computes with ([maAssumptions] and the like)
    are binary64 floats, as in JavaScript; counters that are integers by
    construction (progress, forecast years, status codes) are integers.
    Strings are sequences of bytes; a character outside ASCII is the
    bytes of its UTF-8 encoding. *)

From Stdlib Require Import String Ascii List ZArith Bool Lia PeanoNat.
From Stdlib Require Import DecimalString.
From Stdlib Require Uint63.
From Stdlib Require Import PrimFloat.
Import ListNotations.
(* Decimal literals such as 0.08 denote the nearest binary64 number, as
   they do in JavaScript. *)
Set Warnings "-inexact-float".
Local Open Scope string_scope.
Local Open Scope list_scope.

(** ** JavaScript values *)

Module JS.

(** Truthiness of an optional string: [undefined] and [""] are falsy. *)
Definition truthy (o : option string) : bool :=
  match o with
  | Some s => negb (s =? "")
  | None => false
  end.

(** [o || d] for an optional string [o] and a string [d]. *)
Definition or_else (o : option string) (d : string) : string :=
  match o with
  | Some s => if s =? "" then d else s
  | None => d
  end.

(** [s || d] for two strings. *)
Definition str_or (s d : string) : string := if s =? "" then d else s.

(** [v || d] for numbers: [0], [-0] and [NaN] are falsy. *)
Definition num_or (v d : float) : float :=
  if PrimFloat.is_nan v || PrimFloat.is_zero v then d else v.

(** [!== ] on numbers is the IEEE comparison. *)
Definition num_neq (a b : float) : bool := negb (PrimFloat.eqb a b).

(** The white space [String.prototype.trim] strips (WhiteSpace and
    LineTerminator of ECMAScript), each code point by its UTF-8
    encoding.  One byte: U+0009 to U+000D and U+0020. *)
Definition white1 (a : ascii) : bool :=
  let n := nat_of_ascii a in
  ((9 <=? n)%nat && (n <=? 13)%nat) || (n =? 32)%nat.

(** Two bytes: U+00A0 (C2 A0). *)
Definition white2 (a b : ascii) : bool :=
  (nat_of_ascii a =? 194)%nat && (nat_of_ascii b =? 160)%nat.

(** Three bytes: U+1680 (E1 9A 80), U+2000 to U+200A (E2 80 80 to
    E2 80 8A), U+2028, U+2029 and U+202F (E2 80 A8, A9, AF), U+205F
    (E2 81 9F), U+3000 (E3 80 80) and U+FEFF (EF BB BF). *)
Definition white3 (a b c : ascii) : bool :=
  let x := nat_of_ascii a in
  let y := nat_of_ascii b in
  let z := nat_of_ascii c in
  ((x =? 225) && (y =? 154) && (z =? 128))%nat
  || ((x =? 226)%nat && (y =? 128)%nat
      && (((128 <=? z) && (z <=? 138)) || (z =? 168) || (z =? 169) || (z =? 175))%nat)
  || ((x =? 226) && (y =? 129) && (z =? 159))%nat
  || ((x =? 227) && (y =? 128) && (z =? 128))%nat
  || ((x =? 239) && (y =? 187) && (z =? 191))%nat.

(** Strips the white space at the front of a byte sequence; [w2] and
    [w3] recognise the encodings of two and of three bytes. *)
Fixpoint strip_white (w2 : ascii -> ascii -> bool)
    (w3 : ascii -> ascii -> ascii -> bool) (l : list ascii) : list ascii :=
  match l with
  | [] => []
  | a :: r =>
      if white1 a then strip_white w2 w3 r
      else
        match r with
        | b :: r2 =>
            if w2 a b then strip_white w2 w3 r2
            else
              match r2 with
              | c :: r3 => if w3 a b c then strip_white w2 w3 r3 else l
              | [] => l
              end
        | [] => l
        end
  end.

(** Whether a byte sequence is white space from end to end. *)
Fixpoint all_white (w2 : ascii -> ascii -> bool)
    (w3 : ascii -> ascii -> ascii -> bool) (l : list ascii) : bool :=
  match l with
  | [] => true
  | a :: r =>
      if white1 a then all_white w2 w3 r
      else
        match r with
        | b :: r2 =>
            if w2 a b then all_white w2 w3 r2
            else
              match r2 with
              | c :: r3 => w3 a b c && all_white w2 w3 r3
              | [] => false
              end
        | [] => false
        end
  end.

(** The same encodings read from the last byte backwards. *)
Definition white2_back (b a : ascii) : bool := white2 a b.
Definition white3_back (c b a : ascii) : bool := white3 a b c.

Definition trim_start (l : list ascii) : list ascii :=
  strip_white white2 white3 l.

Definition trim_end (l : list ascii) : list ascii :=
  rev (strip_white white2_back white3_back (rev l)).

Definition trim (s : string) : string :=
  string_of_list_ascii (trim_end (trim_start (list_ascii_of_string s))).

Definition ends_with (suffix s : string) : bool :=
  let n := String.length s in
  let m := String.length suffix in
  (m <=? n)%nat && (substring (n - m) m s =? suffix).

(** [name.replace(/\.xlsx?$/, '')] *)
Definition strip_xlsx (name : string) : string :=
  if ends_with ".xlsx" name then substring 0 (String.length name - 5) name
  else if ends_with ".xls" name then substring 0 (String.length name - 4) name
  else name.

(** Decimal rendering of integers, as in template literals and
    [toString()]. *)
Definition nat_to_string (n : nat) : string :=
  NilZero.string_of_uint (Nat.to_uint n).

Definition int_to_string (z : Z) : string :=
  NilZero.string_of_int (Z.to_int z).

End JS.

(** ** Types of the page *)

Record Stock := {
  symbol : string;
  name : string;
  sector : string;
  sector_code : option string
}.

Record Validation := {
  is_valid : bool;
  errors : list string
}.

Record JobStatus := {
  job_id : string;
  status : string;
  progress : Z;
  message : string;
  company_name : option string;
  industry : option string;
  download_url : option string;
  filename : option string;
  validation : option Validation
}.

Definition Blob := string.

Record File := {
  file_name : string;
  file_content : Blob
}.

(** What a [catch] clause receives: an [Error] with its message, or some
  other value (the [instanceof Error] test distinguishes them). *)
Inductive Thrown :=
| Error (msg : string)
| NotAnError.

Inductive Outcome (A : Type) :=
| Returned (a : A)
| Threw (e : Thrown).
Arguments Returned {A} a.
Arguments Threw {A} e.

(** ** Requests and replies *)

Inductive Method := GET | POST.

#[local] Unset Elimination Schemes.
Inductive Json :=
| JStr (s : string)
| JInt (n : Z)
| JNum (x : float)
| JArr (items : list Json)
| JObj (fields : list (string * Json)).
#[local] Set Elimination Schemes.

Inductive FormPart :=
| FilePart (f : File)
| TextPart (s : string).

Inductive Body :=
| NoBody
| JsonBody (j : Json)            (* JSON.stringify(j) *)
| FormBody (parts : list (string * FormPart)).

Record Request := {
  method : Method;
  url : string;
  headers : list (string * string);
  body : Body
}.

(** Reply to a call whose body is read with [response.json()]:
  the promise of [fetch] rejects, or the response is not [ok] (with its
  status code and the [detail] field of its body, if any), or it is
  [ok] and carries the payload. *)
Inductive Reply (A : Type) :=
| Rejected (e : Thrown)
| NotOk (code : nat) (detail : option string)
| Ok (payload : A).
Arguments Rejected {A} e.
Arguments NotOk {A} code detail.
Arguments Ok {A} payload.

(** Reply to a call whose body is read with [response.blob()]. *)
Inductive BlobReply :=
| BlobRejected (e : Thrown)
| BlobResponse (ok : bool) (code : nat) (blob : Blob).

(** ** The client: React state of [Home] and the browser around it

  [F] is the state of the input forms, which differs between the two
  versions of the page. *)

Record Client (F : Type) := mkClient {
  form : F;
  jobStatus : option JobStatus;
  error : option string;
  isLoading : bool;
  (* the cleanup function returned by the last run of the polling
     effect: the interval handle it clears, if it set one *)
  poll_cleanup : option nat;
  (* live intervals: handle and the job id its callback closes over *)
  timers : list (nat * string);
  next_handle : nat;
  fetched : list Request;
  console : list (string * Thrown);
  alerts : list string;
  downloads : list (string * Blob)
}.
Arguments mkClient {F}.
Arguments form {F} c.
Arguments jobStatus {F} c.
Arguments error {F} c.
Arguments isLoading {F} c.
Arguments poll_cleanup {F} c.
Arguments timers {F} c.
Arguments next_handle {F} c.
Arguments fetched {F} c.
Arguments console {F} c.
Arguments alerts {F} c.
Arguments downloads {F} c.

Section ClientOps.
Context {F : Type}.
Implicit Type c : Client F.

Definition setForm (f : F) c : Client F :=
  mkClient f (jobStatus c) (error c) (isLoading c) (poll_cleanup c)
    (timers c) (next_handle c) (fetched c) (console c) (alerts c) (downloads c).

Definition setJobStatus (j : option JobStatus) c : Client F :=
  mkClient (form c) j (error c) (isLoading c) (poll_cleanup c)
    (timers c) (next_handle c) (fetched c) (console c) (alerts c) (downloads c).

Definition setError (e : option string) c : Client F :=
  mkClient (form c) (jobStatus c) e (isLoading c) (poll_cleanup c)
    (timers c) (next_handle c) (fetched c) (console c) (alerts c) (downloads c).

Definition setIsLoading (b : bool) c : Client F :=
  mkClient (form c) (jobStatus c) (error c) b (poll_cleanup c)
    (timers c) (next_handle c) (fetched c) (console c) (alerts c) (downloads c).

Definition setCleanup (k : option nat) c : Client F :=
  mkClient (form c) (jobStatus c) (error c) (isLoading c) k
    (timers c) (next_handle c) (fetched c) (console c) (alerts c) (downloads c).

(** [fetch(request)]: the call is issued. *)
Definition fetch (r : Request) c : Client F :=
  mkClient (form c) (jobStatus c) (error c) (isLoading c) (poll_cleanup c)
    (timers c) (next_handle c) (fetched c ++ [r]) (console c) (alerts c) (downloads c).

(** [console.error(label, err)] *)
Definition console_error (label : string) (e : Thrown) c : Client F :=
  mkClient (form c) (jobStatus c) (error c) (isLoading c) (poll_cleanup c)
    (timers c) (next_handle c) (fetched c) (console c ++ [(label, e)]) (alerts c) (downloads c).

(** [alert(text)] *)
Definition alert (text : string) c : Client F :=
  mkClient (form c) (jobStatus c) (error c) (isLoading c) (poll_cleanup c)
    (timers c) (next_handle c) (fetched c) (console c) (alerts c ++ [text]) (downloads c).

(** The anchor element with [a.download = name] is clicked on an object
    URL of [blob]. *)
Definition save_as (name : string) (blob : Blob) c : Client F :=
  mkClient (form c) (jobStatus c) (error c) (isLoading c) (poll_cleanup c)
    (timers c) (next_handle c) (fetched c) (console c) (alerts c)
    (downloads c ++ [(name, blob)]).

(** [setInterval(callback, 1000)], the callback closing over [jid];
    the handle returned is [next_handle c]. *)
Definition setInterval (jid : string) c : Client F :=
  mkClient (form c) (jobStatus c) (error c) (isLoading c) (poll_cleanup c)
    (timers c ++ [(next_handle c, jid)]) (S (next_handle c))
    (fetched c) (console c) (alerts c) (downloads c).

(** [clearInterval(h)]; a handle that is not live is ignored. *)
Definition clearInterval (h : nat) c : Client F :=
  mkClient (form c) (jobStatus c) (error c) (isLoading c) (poll_cleanup c)
    (filter (fun t => negb (fst t =? h)%nat) (timers c)) (next_handle c)
    (fetched c) (console c) (alerts c) (downloads c).

Definition timer_job (h : nat) c : option string :=
  option_map snd (find (fun t => (fst t =? h)%nat) (timers c)).

End ClientOps.

(** ** API functions

    Each function issues one request; [*_request] is the request and
    [*_result] is what the awaited call evaluates to for a given reply. *)

(** [API_BASE] of the current page, decided by [process.env.NODE_ENV]
    when the page is built.  (The older page has its own constant, the
    empty string.) *)
Definition API_BASE (NODE_ENV : string) : string :=
  if NODE_ENV =? "production" then "" else "http://localhost:8000".

Section Api.
(* the base URL of the page that calls *)
Variable base : string.

Definition json_headers : list (string * string) :=
  [("Content-Type", "application/json")].

Definition get (u : string) : Request :=
  {| method := GET; url := u; headers := []; body := NoBody |}.

Definition post_json (path : string) (j : Json) : Request :=
  {| method := POST; url := base ++ path; headers := json_headers;
     body := JsonBody j |}.

(** [if (!response.ok) throw new Error(failure); return response.json()] *)
Definition json_result {A : Type} (failure : string) (r : Reply A) : Outcome A :=
  match r with
  | Rejected e => Threw e
  | NotOk _ _ => Threw (Error failure)
  | Ok a => Returned a
  end.

Definition generateModel_request (symbol : string) (forecastYears : Z) : Request :=
  post_json "/api/model/generate"
    (JObj [("symbol", JStr symbol);
           ("exchange", JStr "NSE");
           ("forecast_years", JInt forecastYears);
           ("model_types", JArr [JStr "three_statement"; JStr "dcf"])]).

Definition generateModel_result : Reply string -> Outcome string :=
  json_result "Failed to start model generation".

Definition generateRawModel_request (data : Json) : Request :=
  post_json "/api/model/generate-raw" data.

Definition generateRawModel_result : Reply string -> Outcome string :=
  json_result "Failed to start raw model generation".

Definition generateLBOModel_request (data : Json) : Request :=
  post_json "/api/model/generate-lbo" data.

Definition generateLBOModel_result : Reply string -> Outcome string :=
  json_result "Failed to start LBO model generation".

Definition generateMAModel_request (data : Json) : Request :=
  post_json "/api/model/generate-ma" data.

Definition generateMAModel_result : Reply string -> Outcome string :=
  json_result "Failed to start M&A model generation".

Definition uploadExcelFile_request
    (file : File) (companyName industry : string) (forecastYears : Z) : Request :=
  {| method := POST; url := base ++ "/api/model/upload-excel"; headers := [];
     body := FormBody [("file", FilePart file);
                       ("company_name", TextPart companyName);
                       ("industry", TextPart industry);
                       ("forecast_years", TextPart (JS.int_to_string forecastYears))] |}.

Definition uploadExcelFile_result (r : Reply string) : Outcome string :=
  match r with
  | Rejected e => Threw e
  | NotOk code detail =>
      Threw (Error (JS.or_else detail ("Upload failed: " ++ JS.nat_to_string code)))
  | Ok a => Returned a
  end.

Definition getJobStatus_request (jobId : string) : Request :=
  get (base ++ "/api/job/" ++ jobId).

Definition getJobStatus_result : Reply JobStatus -> Outcome JobStatus :=
  json_result "Failed to get job status".

Inductive ExportFormat := pdf | pptx.

Definition format_name (f : ExportFormat) : string :=
  match f with pdf => "pdf" | pptx => "pptx" end.

Definition downloadExportFile_request (jobId : string) (f : ExportFormat) : Request :=
  get (base ++ "/api/export/" ++ jobId ++ "/" ++ format_name f).

End Api.

(** ** Polling the job status

    The effect with dependencies [jobStatus?.job_id] and
    [jobStatus?.status], and the callback of the interval it sets. *)

Definition terminal (st : string) : bool :=
  (st =? "completed") || (st =? "failed").

Definition poll_deps (j : option JobStatus) : option string * option string :=
  (option_map job_id j, option_map status j).

Definition same_dep (a b : option string) : bool :=
  match a, b with
  | Some x, Some y => x =? y
  | None, None => true
  | _, _ => false
  end.

Definition same_deps (d1 d2 : option string * option string) : bool :=
  same_dep (fst d1) (fst d2) && same_dep (snd d1) (snd d2).

Inductive PollEvent :=
| Tick (h : nat)                             (* the interval [h] fires *)
| Resume (h : nat) (r : Reply JobStatus).    (* its [await] is resumed *)

Section Polling.
(* the base URL of the page *)
Variable base : string.
Context {F : Type}.
Implicit Type c : Client F.

(** Body of the effect. *)
Definition poll_effect c : Client F :=
  match jobStatus c with
  | None => setCleanup None (setIsLoading false c)
  | Some js =>
      if terminal (status js) then setCleanup None (setIsLoading false c)
      else setCleanup (Some (next_handle c)) (setInterval (job_id js) c)
  end.

Definition run_cleanup c : Client F :=
  match poll_cleanup c with
  | Some h => clearInterval h c
  | None => c
  end.

(** After a handler has run on [before] and left [after], React renders
    and runs the effect again when one of its dependencies changed,
    cleaning up the previous run first. *)
Definition commit (before after : Client F) : Client F :=
  if same_deps (poll_deps (jobStatus before)) (poll_deps (jobStatus after))
  then after
  else poll_effect (run_cleanup after).

(** The interval callback up to [await getJobStatus(jobStatus.job_id)]. *)
Definition interval_tick (h : nat) c : Client F :=
  match timer_job h c with
  | Some jid => fetch (getJobStatus_request base jid) c
  | None => c
  end.

(** The rest of the callback, [interval] being the handle [h]. *)
Definition interval_resume (h : nat) (r : Reply JobStatus) c : Client F :=
  match getJobStatus_result r with
  | Returned st =>
      let c1 := setJobStatus (Some st) c in
      if terminal (status st) then clearInterval h (setIsLoading false c1)
      else c1
  | Threw e => console_error "Failed to get job status:" e c
  end.

Definition poll_step c (ev : PollEvent) : Client F :=
  match ev with
  | Tick h => commit c (interval_tick h c)
  | Resume h r => commit c (interval_resume h r c)
  end.

Definition poll_run c (evs : list PollEvent) : Client F :=
  fold_left poll_step evs c.

(** First render of the page around the form state [f]: no job, and the
    effect runs once. *)
Definition mount (f : F) : Client F :=
  poll_effect (mkClient f None None false None [] 0 [] [] [] []).

End Polling.

(** *** Snapshots held across polls *)

Definition in_flight (j : JobStatus) : bool :=
  (status j =? "pending") || (status j =? "running").

Definition progress_step_ok (a b : JobStatus) : bool :=
  if in_flight a && in_flight b then (progress a <=? progress b)%Z else true.

(** The progress never decreases between two consecutive snapshots that
    are both pending or running. *)
Fixpoint progress_monotone (l : list JobStatus) : bool :=
  match l with
  | a :: (b :: _) as rest => progress_step_ok a b && progress_monotone rest
  | _ => true
  end.

Definition snapshot_list (j : option JobStatus) : list JobStatus :=
  match j with Some s => [s] | None => [] end.

Section Snapshots.
(* the base URL of the page *)
Variable base : string.
Context {F : Type}.

(** The snapshot the client holds after each event. *)
Fixpoint history (c : Client F) (evs : list PollEvent) : list JobStatus :=
  match evs with
  | [] => []
  | ev :: rest =>
      let c' := poll_step base c ev in
      snapshot_list (jobStatus c') ++ history c' rest
  end.

Definition held (c : Client F) (evs : list PollEvent) : list JobStatus :=
  snapshot_list (jobStatus c) ++ history c evs.

End Snapshots.

(** The job states the status endpoint delivered, in the order in which
    the client received them. *)
Fixpoint delivered (evs : list PollEvent) : list JobStatus :=
  match evs with
  | [] => []
  | Resume _ (Ok st) :: rest => st :: delivered rest
  | _ :: rest => delivered rest
  end.

(** The callback installs whatever the status endpoint replied
    ([setJobStatus(status)] comes before any test): a successful reply
    whose status is neither completed nor failed puts a job in progress
    in the snapshot, whatever the snapshot was. *)
Definition installs_running_job (ev : PollEvent) : bool :=
  match ev with
  | Resume _ (Ok st) => negb (terminal (status st))
  | _ => false
  end.

(** What [getJobStatus] throws on a reply that is no job state. *)
Definition getJobStatus_error (r : Reply JobStatus) : Thrown :=
  match r with
  | Rejected e => e
  | _ => Error "Failed to get job status"
  end.

(** *** Coherence of the live intervals with the snapshot

    Every live interval is the one the last effect run will clean up,
    and an interval is live only while the snapshot is not terminal. *)

Definition same_handle (k : option nat) (h : nat) : bool :=
  match k with Some h' => (h' =? h)%nat | None => false end.

Definition is_nil {A : Type} (l : list A) : bool :=
  match l with [] => true | _ => false end.

Definition polling_allowed (j : option JobStatus) : bool :=
  match j with
  | Some js => negb (terminal (status js))
  | None => false
  end.

Definition coherent {F : Type} (c : Client F) : bool :=
  forallb (fun t => same_handle (poll_cleanup c) (fst t)) (timers c)
  && (polling_allowed (jobStatus c) || is_nil (timers c)).

Definition is_some {A : Type} (o : option A) : bool :=
  match o with Some _ => true | None => false end.

(** The snapshot [handleGenerate] installs when the submission succeeds. *)
Definition pending_job (jid : string) : JobStatus :=
  {| job_id := jid; status := "pending"; progress := 0; message := "Starting...";
     company_name := None; industry := None; download_url := None;
     filename := None; validation := None |}.

(** ** The current page *)

Module Current.

Inductive TabType := stocks | excel | lbo | ma | compare.

Definition tab_eqb (a b : TabType) : bool :=
  match a, b with
  | stocks, stocks | excel, excel | lbo, lbo | ma, ma | compare, compare => true
  | _, _ => false
  end.

Record LBOAssumptions := {
  holding_period : float;
  entry_multiple : float;
  exit_multiple : float;
  senior_debt_multiple : float;
  senior_interest_rate : float;
  mezz_debt_multiple : float;
  mezz_interest_rate : float;
  sub_debt_multiple : float;
  sub_interest_rate : float;
  revenue_growth : float;
  ebitda_margin : float
}.

Record MAAssumptions := {
  offer_premium : float;
  percent_stock : float;
  percent_cash : float;
  synergies_revenue : float;
  synergies_cost : float;
  acquirer_growth_rate : float;
  target_growth_rate : float
}.

Record Form := mkForm {
  activeTab : TabType;
  selectedStock : option Stock;
  forecastYears : Z;
  excelFile : option File;
  excelCompanyName : string;
  excelIndustry : string;
  lboAssumptions : LBOAssumptions;
  acquirerStock : option Stock;
  targetStock : option Stock;
  maAssumptions : MAAssumptions;
  compareStocks : list Stock
}.

Definition initial_lbo : LBOAssumptions :=
  {| holding_period := 5; entry_multiple := 8.0; exit_multiple := 8.0;
     senior_debt_multiple := 3.0; senior_interest_rate := 0.08;
     mezz_debt_multiple := 1.5; mezz_interest_rate := 0.12;
     sub_debt_multiple := 0.5; sub_interest_rate := 0.14;
     revenue_growth := 0.08; ebitda_margin := 0.25 |}.

Definition initial_ma : MAAssumptions :=
  {| offer_premium := 0.25; percent_stock := 0.50; percent_cash := 0.50;
     synergies_revenue := 0; synergies_cost := 0;
     acquirer_growth_rate := 0.05; target_growth_rate := 0.05 |}.

Definition initial_form : Form :=
  {| activeTab := stocks; selectedStock := None; forecastYears := 5;
     excelFile := None; excelCompanyName := ""; excelIndustry := "general";
     lboAssumptions := initial_lbo; acquirerStock := None; targetStock := None;
     maAssumptions := initial_ma; compareStocks := [] |}.

Definition setActiveTab (t : TabType) (f : Form) : Form :=
  mkForm t (selectedStock f) (forecastYears f) (excelFile f) (excelCompanyName f)
    (excelIndustry f) (lboAssumptions f) (acquirerStock f) (targetStock f)
    (maAssumptions f) (compareStocks f).

Definition setSelectedStock (s : option Stock) (f : Form) : Form :=
  mkForm (activeTab f) s (forecastYears f) (excelFile f) (excelCompanyName f)
    (excelIndustry f) (lboAssumptions f) (acquirerStock f) (targetStock f)
    (maAssumptions f) (compareStocks f).

Definition setForecastYears (y : Z) (f : Form) : Form :=
  mkForm (activeTab f) (selectedStock f) y (excelFile f) (excelCompanyName f)
    (excelIndustry f) (lboAssumptions f) (acquirerStock f) (targetStock f)
    (maAssumptions f) (compareStocks f).

Definition setExcelFile (x : option File) (f : Form) : Form :=
  mkForm (activeTab f) (selectedStock f) (forecastYears f) x (excelCompanyName f)
    (excelIndustry f) (lboAssumptions f) (acquirerStock f) (targetStock f)
    (maAssumptions f) (compareStocks f).

Definition setExcelCompanyName (n : string) (f : Form) : Form :=
  mkForm (activeTab f) (selectedStock f) (forecastYears f) (excelFile f) n
    (excelIndustry f) (lboAssumptions f) (acquirerStock f) (targetStock f)
    (maAssumptions f) (compareStocks f).

Definition setAcquirerStock (s : option Stock) (f : Form) : Form :=
  mkForm (activeTab f) (selectedStock f) (forecastYears f) (excelFile f)
    (excelCompanyName f) (excelIndustry f) (lboAssumptions f) s (targetStock f)
    (maAssumptions f) (compareStocks f).

Definition setTargetStock (s : option Stock) (f : Form) : Form :=
  mkForm (activeTab f) (selectedStock f) (forecastYears f) (excelFile f)
    (excelCompanyName f) (excelIndustry f) (lboAssumptions f) (acquirerStock f) s
    (maAssumptions f) (compareStocks f).

Definition setMaAssumptions (m : MAAssumptions) (f : Form) : Form :=
  mkForm (activeTab f) (selectedStock f) (forecastYears f) (excelFile f)
    (excelCompanyName f) (excelIndustry f) (lboAssumptions f) (acquirerStock f)
    (targetStock f) m (compareStocks f).

Definition setCompareStocks (l : list Stock) (f : Form) : Form :=
  mkForm (activeTab f) (selectedStock f) (forecastYears f) (excelFile f)
    (excelCompanyName f) (excelIndustry f) (lboAssumptions f) (acquirerStock f)
    (targetStock f) (maAssumptions f) l.

(** [{ symbol, exchange: "NSE", ...lboAssumptions }] *)
Definition lbo_data (s : Stock) (a : LBOAssumptions) : Json :=
  JObj [("symbol", JStr (symbol s));
        ("exchange", JStr "NSE");
        ("holding_period", JNum (holding_period a));
        ("entry_multiple", JNum (entry_multiple a));
        ("exit_multiple", JNum (exit_multiple a));
        ("senior_debt_multiple", JNum (senior_debt_multiple a));
        ("senior_interest_rate", JNum (senior_interest_rate a));
        ("mezz_debt_multiple", JNum (mezz_debt_multiple a));
        ("mezz_interest_rate", JNum (mezz_interest_rate a));
        ("sub_debt_multiple", JNum (sub_debt_multiple a));
        ("sub_interest_rate", JNum (sub_interest_rate a));
        ("revenue_growth", JNum (revenue_growth a));
        ("ebitda_margin", JNum (ebitda_margin a))].

(** [{ acquirer_symbol, target_symbol, exchange: "NSE", ...maAssumptions }] *)
Definition ma_data (acq tgt : Stock) (m : MAAssumptions) : Json :=
  JObj [("acquirer_symbol", JStr (symbol acq));
        ("target_symbol", JStr (symbol tgt));
        ("exchange", JStr "NSE");
        ("offer_premium", JNum (offer_premium m));
        ("percent_stock", JNum (percent_stock m));
        ("percent_cash", JNum (percent_cash m));
        ("synergies_revenue", JNum (synergies_revenue m));
        ("synergies_cost", JNum (synergies_cost m));
        ("acquirer_growth_rate", JNum (acquirer_growth_rate m));
        ("target_growth_rate", JNum (target_growth_rate m))].

(** The API function whose reply [handleGenerate] awaits. *)
Inductive Call := GenerateModel | UploadExcelFile | GenerateLBOModel | GenerateMAModel.

Section Handlers.
Variable NODE_ENV : string.
Implicit Type c : Client Form.

Definition call_result (k : Call) : Reply string -> Outcome string :=
  match k with
  | GenerateModel => generateModel_result
  | UploadExcelFile => uploadExcelFile_result
  | GenerateLBOModel => generateLBOModel_result
  | GenerateMAModel => generateMAModel_result
  end.

(** [handleGenerate] up to its [await]: the guards, the three state
    updates and the request.  [None] when it returns without a request. *)
Definition handleGenerate_begin c : option Call * Client Form :=
  let f := form c in
  if tab_eqb (activeTab f) stocks && negb (is_some (selectedStock f)) then (None, c)
  else if tab_eqb (activeTab f) excel && negb (is_some (excelFile f)) then (None, c)
  else if tab_eqb (activeTab f) lbo && negb (is_some (selectedStock f)) then (None, c)
  else if tab_eqb (activeTab f) ma
          && (negb (is_some (acquirerStock f)) || negb (is_some (targetStock f)))
  then (None, c)
  else
    let c1 := setJobStatus None (setError None (setIsLoading true c)) in
    match activeTab f, selectedStock f, excelFile f, acquirerStock f, targetStock f with
    | stocks, Some s, _, _, _ =>
        (Some GenerateModel,
         fetch (generateModel_request (API_BASE NODE_ENV) (symbol s) (forecastYears f)) c1)
    | excel, _, Some file, _, _ =>
        (Some UploadExcelFile,
         fetch (uploadExcelFile_request (API_BASE NODE_ENV) file
                  (JS.str_or (excelCompanyName f) (JS.strip_xlsx (file_name file)))
                  (excelIndustry f) (forecastYears f)) c1)
    | lbo, Some s, _, _, _ =>
        (Some GenerateLBOModel,
         fetch (generateLBOModel_request (API_BASE NODE_ENV) (lbo_data s (lboAssumptions f))) c1)
    | ma, _, _, Some acq, Some tgt =>
        (Some GenerateMAModel,
         fetch (generateMAModel_request (API_BASE NODE_ENV) (ma_data acq tgt (maAssumptions f))) c1)
    | _, _, _, _, _ => (None, c1)
    end.

(** The rest of [handleGenerate]: the snapshot on success, the [catch]
    clause otherwise. *)
Definition handleGenerate_resume (k : Call) (r : Reply string) c : Client Form :=
  match call_result k r with
  | Returned jid => setJobStatus (Some (pending_job jid)) c
  | Threw e =>
      let errorMessage :=
        match e with
        | Error msg => msg
        | NotAnError => "Failed to start model generation. Please try again."
        end in
      setIsLoading false (setError (Some errorMessage) c)
  end.

(** A click on "Generate Model" answered by [r]. *)
Definition handleGenerate (r : Reply string) c : Client Form :=
  let (k, c1) := handleGenerate_begin c in
  let c2 := commit c c1 in
  match k with
  | Some call => commit c2 (handleGenerate_resume call r c2)
  | None => c2
  end.

(** A stock of the grid is clicked. *)
Definition select_stock (s : Stock) c : Client Form :=
  commit c (setError None (setJobStatus None
              (setForm (setSelectedStock (Some s) (form c)) c))).

(** "Generate Another Model" *)
Definition generate_another c : Client Form :=
  commit c (setForm (setExcelCompanyName ""
                       (setExcelFile None (setSelectedStock None (form c))))
              (setJobStatus None c)).

(** The download link and the export buttons are rendered for a
    completed job with a download URL. *)
Definition download_shown (j : JobStatus) : bool :=
  (status j =? "completed") && JS.truthy (download_url j).

(** "Download Excel Model":
    [fetch(url).then(res => res.blob()).then(blob => ...)], without a
    test of [res.ok] and without a [catch]. *)
Definition download_click (r : BlobReply) c : Client Form :=
  match jobStatus c with
  | Some js =>
      match download_url js with
      | Some u =>
          if download_shown js then
            let c1 := fetch (get u) c in
            match r with
            | BlobRejected _ => c1
            | BlobResponse _ _ blob =>
                save_as (JS.or_else (filename js) "financial_model.xlsx") blob c1
            end
          else c
      | None => c
      end
  | None => c
  end.

(** [downloadExportFile] after its [fetch]. *)
Definition downloadExportFile_resume (f : ExportFormat) (r : BlobReply) c
  : Outcome unit * Client Form :=
  match r with
  | BlobRejected e => (Threw e, c)
  | BlobResponse ok _ blob =>
      if ok then (Returned tt, save_as ("model." ++ format_name f) blob c)
      else (Threw (Error ("Export failed: " ++ format_name f)), c)
  end.

Definition export_failed (f : ExportFormat) : string :=
  match f with
  | pdf => "PDF export failed. Please try again."
  | pptx => "PowerPoint export failed. Please try again."
  end.

(** "Export to PDF" and "Export to PowerPoint" *)
Definition export_click (f : ExportFormat) (r : BlobReply) c : Client Form :=
  match jobStatus c with
  | Some js =>
      if download_shown js then
        let c1 := fetch (downloadExportFile_request (API_BASE NODE_ENV) (job_id js) f) c in
        match downloadExportFile_resume f r c1 with
        | (Returned _, c2) => c2
        | (Threw _, c2) => alert (export_failed f) c2
        end
      else c
  | None => c
  end.

(** The clients the page can be in: it is mounted on the initial form,
    and then handlers run, each followed by a render.  An edit of an
    input replaces the form state; the two halves of [handleGenerate]
    are separate steps, so that other events may fall between the
    request and its reply. *)
Inductive reachable : Client Form -> Prop :=
| reach_mount : reachable (mount initial_form)
| reach_edit c f : reachable c -> reachable (setForm f c)
| reach_generate c :
    reachable c -> reachable (commit c (snd (handleGenerate_begin c)))
| reach_generate_reply c k r :
    reachable c -> reachable (commit c (handleGenerate_resume k r c))
| reach_select c s : reachable c -> reachable (select_stock s c)
| reach_another c : reachable c -> reachable (generate_another c)
| reach_poll c ev : reachable c -> reachable (poll_step (API_BASE NODE_ENV) c ev)
| reach_download c r : reachable c -> reachable (download_click r c)
| reach_export c f r : reachable c -> reachable (export_click f r c).

End Handlers.

(** *** M&A transaction terms *)

(** The inputs of the M&A panel that write [maAssumptions]; [v] is
    [parseFloat(e.target.value)]. *)
Inductive MAEdit :=
| EditOfferPremium (v : float)
| EditPercentStock (v : float)
| EditSynergiesRevenue (v : float)
| EditSynergiesCost (v : float).

Definition ma_edit (e : MAEdit) (m : MAAssumptions) : MAAssumptions :=
  match e with
  | EditOfferPremium v =>
      {| offer_premium := (JS.num_or v 25 / 100)%float;
         percent_stock := percent_stock m; percent_cash := percent_cash m;
         synergies_revenue := synergies_revenue m; synergies_cost := synergies_cost m;
         acquirer_growth_rate := acquirer_growth_rate m;
         target_growth_rate := target_growth_rate m |}
  | EditPercentStock v =>
      let stock := (JS.num_or v 50 / 100)%float in
      {| offer_premium := offer_premium m;
         percent_stock := stock; percent_cash := (1 - stock)%float;
         synergies_revenue := synergies_revenue m; synergies_cost := synergies_cost m;
         acquirer_growth_rate := acquirer_growth_rate m;
         target_growth_rate := target_growth_rate m |}
  | EditSynergiesRevenue v =>
      {| offer_premium := offer_premium m;
         percent_stock := percent_stock m; percent_cash := percent_cash m;
         synergies_revenue := JS.num_or v 0; synergies_cost := synergies_cost m;
         acquirer_growth_rate := acquirer_growth_rate m;
         target_growth_rate := target_growth_rate m |}
  | EditSynergiesCost v =>
      {| offer_premium := offer_premium m;
         percent_stock := percent_stock m; percent_cash := percent_cash m;
         synergies_revenue := synergies_revenue m; synergies_cost := JS.num_or v 0;
         acquirer_growth_rate := acquirer_growth_rate m;
         target_growth_rate := target_growth_rate m |}
  end.

(** [maAssumptions.percent_stock + maAssumptions.percent_cash] *)
Definition consideration (m : MAAssumptions) : float :=
  (percent_stock m + percent_cash m)%float.

(** [validationWarnings.ma.consideration_mix] (the text without the
    warning sign in front of it) *)
Definition consideration_mix (m : MAAssumptions) : option string :=
  if JS.num_neq (consideration m) 1 then Some "Stock + Cash should equal 100%"
  else None.

(** A percentage with two decimals, [n / 100], as [parseFloat] reads it. *)
Definition percent_entry (n : nat) : float :=
  (PrimFloat.of_uint63 (Uint63.of_Z (Z.of_nat n)) / 100)%float.

(** *** Comparison selection *)

Inductive CompareClick :=
| AddStock (stock : Stock)        (* a search result is clicked *)
| RemoveStock (stock : Stock).    (* the cross of a selected stock *)

Definition compare_click (e : CompareClick) (l : list Stock) : list Stock :=
  match e with
  | AddStock stock =>
      if negb (is_some (find (fun s => symbol s =? symbol stock) l))
         && (length l <? 5)%nat
      then l ++ [stock]
      else l
  | RemoveStock stock =>
      filter (fun s => negb (symbol s =? symbol stock)) l
  end.

Definition compare_clicks (es : list CompareClick) (f : Form) : Form :=
  fold_left (fun f e => setCompareStocks (compare_click e (compareStocks f)) f) es f.

(** *** Required fields of a submission

    What each tab needs before "Generate Model" does anything: a stock
    for "stocks" and "lbo", a file for "excel", an acquirer and a target
    for "ma".  ("compare" has its own button and submits no job.) *)
Definition missing_required (f : Form) : bool :=
  match activeTab f with
  | stocks | lbo => negb (is_some (selectedStock f))
  | excel => negb (is_some (excelFile f))
  | ma => negb (is_some (acquirerStock f)) || negb (is_some (targetStock f))
  | compare => false
  end.

End Current.

(** ** The older page: the "stocks" and "raw" tabs *)

Module Older.

(** [const API_BASE = ""] *)
Definition API_BASE : string := "".

Inductive TabType := stocks | raw.

Definition tab_eqb (a b : TabType) : bool :=
  match a, b with
  | stocks, stocks | raw, raw => true
  | _, _ => false
  end.

Record RawModelData := {
  raw_company_name : string;
  raw_industry : string;
  forecast_years : Z;
  historical_data : Json;
  assumptions : Json
}.

Record Form := mkForm {
  activeTab : TabType;
  selectedStock : option Stock;
  forecastYears : Z;
  rawData : RawModelData
}.

Definition initial_raw : RawModelData :=
  {| raw_company_name := ""; raw_industry := "general"; forecast_years := 5;
     historical_data :=
       JObj [("income_statement",
              JObj [("revenue", JInt 10000); ("ebitda", JInt 2500);
                    ("net_income", JInt 1500)]);
             ("balance_sheet",
              JObj [("total_assets", JInt 20000); ("total_liabilities", JInt 8000)])];
     assumptions :=
       JObj [("revenue_growth", JNum 0.10); ("ebitda_margin", JNum 0.25);
             ("tax_rate", JNum 0.25)] |}.

Definition initial_form : Form :=
  {| activeTab := stocks; selectedStock := None; forecastYears := 5;
     rawData := initial_raw |}.

Definition raw_json (d : RawModelData) : Json :=
  JObj [("company_name", JStr (raw_company_name d));
        ("industry", JStr (raw_industry d));
        ("forecast_years", JInt (forecast_years d));
        ("historical_data", historical_data d);
        ("assumptions", assumptions d)].

Inductive Call := GenerateModel | GenerateRawModel.

Section Handlers.
Implicit Type c : Client Form.

Definition call_result (k : Call) : Reply string -> Outcome string :=
  match k with
  | GenerateModel => generateModel_result
  | GenerateRawModel => generateRawModel_result
  end.

Definition handleGenerate_begin c : option Call * Client Form :=
  let f := form c in
  if tab_eqb (activeTab f) stocks && negb (is_some (selectedStock f)) then (None, c)
  else if tab_eqb (activeTab f) raw
          && (JS.trim (raw_company_name (rawData f)) =? "")
  then (None, c)
  else
    let c1 := setJobStatus None (setError None (setIsLoading true c)) in
    match activeTab f, selectedStock f with
    | stocks, Some s =>
        (Some GenerateModel,
         fetch (generateModel_request API_BASE (symbol s) (forecastYears f)) c1)
    | _, _ =>
        (Some GenerateRawModel,
         fetch (generateRawModel_request API_BASE (raw_json (rawData f))) c1)
    end.

Definition handleGenerate_resume (k : Call) (r : Reply string) c : Client Form :=
  match call_result k r with
  | Returned jid => setJobStatus (Some (pending_job jid)) c
  | Threw _ =>
      setIsLoading false
        (setError (Some "Failed to start model generation. Please try again.") c)
  end.

Definition handleGenerate (r : Reply string) c : Client Form :=
  let (k, c1) := handleGenerate_begin c in
  let c2 := commit c c1 in
  match k with
  | Some call => commit c2 (handleGenerate_resume call r c2)
  | None => c2
  end.

(** A stock of the grid is clicked. *)
Definition select_stock (s : Stock) c : Client Form :=
  commit c (setError None (setJobStatus None
              (setForm (mkForm (activeTab (form c)) (Some s) (forecastYears (form c))
                          (rawData (form c))) c))).

(** "Generate Another Model" *)
Definition generate_another c : Client Form :=
  let d := rawData (form c) in
  commit c (setForm (mkForm (activeTab (form c)) None (forecastYears (form c))
                       {| raw_company_name := "";
                          raw_industry := raw_industry d;
                          forecast_years := forecast_years d;
                          historical_data := historical_data d;
                          assumptions := assumptions d |})
              (setJobStatus None c)).

Inductive reachable : Client Form -> Prop :=
| reach_mount : reachable (mount initial_form)
| reach_edit c f : reachable c -> reachable (setForm f c)
| reach_generate c :
    reachable c -> reachable (commit c (snd (handleGenerate_begin c)))
| reach_generate_reply c k r :
    reachable c -> reachable (commit c (handleGenerate_resume k r c))
| reach_select c s : reachable c -> reachable (select_stock s c)
| reach_another c : reachable c -> reachable (generate_another c)
| reach_poll c ev : reachable c -> reachable (poll_step API_BASE c ev).

End Handlers.

(** What each tab needs: a stock for "stocks", a company name for "raw". *)
Definition missing_required (f : Form) : bool :=
  match activeTab f with
  | stocks => negb (is_some (selectedStock f))
  | raw => raw_company_name (rawData f) =? ""
  end.

End Older.

(** A reply that is not a successful one: the request was rejected, or
    the response was not [ok]. *)
Definition failed_reply {A : Type} (r : Reply A) : bool :=
  match r with
  | Ok _ => false
  | _ => true
  end.

(** ** Sample data, for the examples *)

Module Sample.

Definition tcs : Stock :=
  {| symbol := "TCS"; name := "Tata Consultancy Services"; sector := "IT";
     sector_code := Some "it" |}.

Definition infy : Stock :=
  {| symbol := "INFY"; name := "Infosys"; sector := "IT"; sector_code := Some "it" |}.

Definition running (jid : string) (p : Z) : JobStatus :=
  {| job_id := jid; status := "running"; progress := p; message := "Building model";
     company_name := Some "Tata Consultancy Services"; industry := Some "it";
     download_url := None; filename := None; validation := None |}.

Definition completed (jid : string) (file : option string) : JobStatus :=
  {| job_id := jid; status := "completed"; progress := 100; message := "Done";
     company_name := Some "Tata Consultancy Services"; industry := Some "it";
     download_url := Some "/x"; filename := file; validation := None |}.

(** The current page with TCS selected on the "stocks" tab. *)
Definition tcs_selected : Client Current.Form :=
  Current.select_stock tcs (mount Current.initial_form).

(** The same after "Generate Model" was answered with job ["j1"]. *)
Definition tcs_pending : Client Current.Form :=
  Current.handleGenerate "production" (Ok "j1") tcs_selected.

(** The same once a poll has reported the job completed, with and
    without a file name. *)
Definition tcs_done (file : option string) : Client Current.Form :=
  poll_step (API_BASE "production") tcs_pending (Resume 0 (Ok (completed "j1" file))).

(** The older page on its "raw" tab, the company name still empty. *)
Definition raw_empty : Client Older.Form :=
  mount (Older.mkForm Older.raw None 5 Older.initial_raw).

End Sample.

(** ** Further parts of the current page *)

(** The snapshot and the intervals agree: a pending or running snapshot
    is polled by exactly one interval, set by the last effect run and
    closing over the snapshot's job id; otherwise no interval is alive. *)
Definition polls_snapshot {F : Type} (c : Client F) : Prop :=
  match jobStatus c with
  | Some js =>
      if terminal (status js) then timers c = []
      else exists h, timers c = [(h, job_id js)] /\ poll_cleanup c = Some h
  | None => timers c = []
  end.

Module CurrentUI.
Import Current.

(** The [disabled] attribute of the "Generate Model" button. *)
Definition generate_disabled (c : Client Form) : bool :=
  let f := form c in
  isLoading c
  || (tab_eqb (activeTab f) stocks && negb (is_some (selectedStock f)))
  || (tab_eqb (activeTab f) excel && negb (is_some (excelFile f)))
  || (tab_eqb (activeTab f) lbo && negb (is_some (selectedStock f)))
  || (tab_eqb (activeTab f) ma
      && (negb (is_some (acquirerStock f)) || negb (is_some (targetStock f)))).

(** The four paths [handleGenerate] posts to. *)
Definition generate_paths : list string :=
  ["/api/model/generate"; "/api/model/upload-excel";
   "/api/model/generate-lbo"; "/api/model/generate-ma"].

(** *** Comparison *)

(** [isComparing] and [comparisonData], the two pieces of state that only
    the comparison uses. *)
Record CompareState := {
  isComparing : bool;
  comparisonData : option Json
}.

Section Compare.
Variable NODE_ENV : string.

(** The request of [handleCompare]:
    [{ symbols: compareStocks.map(s => s.symbol), exchange: "NSE" }]. *)
Definition compare_request (l : list Stock) : Request :=
  post_json (API_BASE NODE_ENV) "/api/compare"
    (JObj [("symbols", JArr (map (fun s => JStr (symbol s)) l));
           ("exchange", JStr "NSE")]).

(** [handleCompare] up to its [await]; [false] when it returns early. *)
Definition handleCompare_begin (cv : Client Form * CompareState)
  : bool * (Client Form * CompareState) :=
  let (c, v) := cv in
  if (length (compareStocks (form c)) <? 2)%nat then
    (false, (setError (Some "Select at least 2 companies to compare") c, v))
  else
    (true,
     (fetch (compare_request (compareStocks (form c))) (setError None c),
      {| isComparing := true; comparisonData := comparisonData v |})).

(** The rest of [handleCompare]: [try], [catch] and [finally]. *)
Definition handleCompare_resume (r : Reply Json) (cv : Client Form * CompareState)
  : Client Form * CompareState :=
  let (c, v) := cv in
  match json_result "Comparison failed" r with
  | Returned data =>
      (c, {| isComparing := false; comparisonData := Some data |})
  | Threw e =>
      (setError (Some (match e with
                       | Error msg => msg
                       | NotAnError => "Comparison failed"
                       end)) c,
       {| isComparing := false; comparisonData := comparisonData v |})
  end.

(** A click on "Compare Companies" answered by [r]; the snapshot is not
    written, so the render that follows leaves the polling effect alone. *)
Definition handleCompare (r : Reply Json) (cv : Client Form * CompareState)
  : Client Form * CompareState :=
  let (issued, cv1) := handleCompare_begin cv in
  if issued then handleCompare_resume r cv1 else cv1.

End Compare.

(** *** The Excel file *)

Definition to_lower (a : ascii) : ascii :=
  let n := nat_of_ascii a in
  if (65 <=? n)%nat && (n <=? 90)%nat then ascii_of_nat (n + 32) else a.

Fixpoint lower (s : string) : string :=
  match s with
  | EmptyString => EmptyString
  | String a r => String (to_lower a) (lower r)
  end.

(** [name.match(/\.xlsx?$/i)] *)
Definition is_excel_name (name : string) : bool :=
  JS.ends_with ".xlsx" (lower name) || JS.ends_with ".xls" (lower name).

(** [onDrop] of the upload area, [files] being [e.dataTransfer.files]. *)
Definition onDrop (files : list File) (f : Form) : Form :=
  match files with
  | file :: _ =>
      if is_excel_name (file_name file) then setExcelFile (Some file) f else f
  | [] => f
  end.

(** [onChange] of the hidden file input. *)
Definition onFileInput (files : list File) (f : Form) : Form :=
  match files with
  | file :: _ => setExcelFile (Some file) f
  | [] => f
  end.

(** *** Sequences of M&A edits *)

Definition ma_edits (es : list MAEdit) (m : MAAssumptions) : MAAssumptions :=
  fold_left (fun m e => ma_edit e m) es m.

(** An edit of "Stock (%)" enters a percentage from 0.00 to 100.00; the
    other inputs are free. *)
Definition entry_in_range (e : MAEdit) : Prop :=
  match e with
  | EditPercentStock v => exists n, (n <= 100 * 100)%nat /\ v = percent_entry n
  | _ => True
  end.

End CurrentUI.

(** ** Further parts of the older page *)

Module OlderUI.
Import Older.

(** The [disabled] attribute of the "Generate Model" button. *)
Definition generate_disabled (c : Client Form) : bool :=
  let f := form c in
  isLoading c
  || (tab_eqb (activeTab f) stocks && negb (is_some (selectedStock f)))
  || (tab_eqb (activeTab f) raw && (JS.trim (raw_company_name (rawData f)) =? "")).

(** The name is white space from end to end (or empty). *)
Definition all_whitespace (s : string) : bool :=
  JS.all_white JS.white2 JS.white3 (list_ascii_of_string s).

End OlderUI.

(** Sample data for the further parts. *)

Module Sample2.

Definition report : File :=
  {| file_name := "acme.xlsx"; file_content := "PK-sheet" |}.

Definition shouting : File :=
  {| file_name := "ACME.XLSX"; file_content := "PK-sheet" |}.

(** The current page on the "excel" tab with [report] chosen. *)
Definition excel_ready : Client Current.Form :=
  setForm (CurrentUI.onFileInput [report]
             (Current.setActiveTab Current.excel Current.initial_form))
    (mount Current.initial_form).

(** The current page on the "compare" tab, nothing else touched. *)
Definition on_compare : Client Current.Form :=
  setForm (Current.setActiveTab Current.compare Current.initial_form)
    (mount Current.initial_form).

(** TCS and INFY selected for comparison. *)
Definition two_selected : Client Current.Form * CurrentUI.CompareState :=
  (setForm (Current.compare_clicks
              [Current.AddStock Sample.tcs; Current.AddStock Sample.infy]
              (Current.setActiveTab Current.compare Current.initial_form))
     (mount Current.initial_form),
   {| CurrentUI.isComparing := false; CurrentUI.comparisonData := None |}).

(** A no-break space, U+00A0. *)
Definition nbsp : string :=
  String (ascii_of_nat 194) (String (ascii_of_nat 160) "").

(** The older page on "raw" with a company name of blanks: a space, a
    no-break space and a tab. *)
Definition raw_blank : Client Older.Form :=
  mount (Older.mkForm Older.raw None 5
           {| Older.raw_company_name := " " ++ nbsp ++ String (ascii_of_nat 9) "";
              Older.raw_industry := "general";
              Older.forecast_years := 5;
              Older.historical_data := JObj [];
              Older.assumptions := JObj [] |}).

(** The older page on "raw" with a padded company name. *)
Definition raw_padded : Client Older.Form :=
  mount (Older.mkForm Older.raw None 5
           {| Older.raw_company_name := " Acme ";
              Older.raw_industry := "general";
              Older.forecast_years := 5;
              Older.historical_data := JObj [];
              Older.assumptions := JObj [] |}).

End Sample2.

(** * Properties *)

(** ** Field-by-field behaviour of the effect *)

Section PollingFacts.
(* the base URL of the page *)
Variable base : string.
Context {F : Type}.
Implicit Type c : Client F.

Lemma same_dep_refl (a : option string) : same_dep a a = true.
Proof. destruct a; simpl; auto using String.eqb_refl. Qed.

Lemma same_deps_refl (d : option string * option string) : same_deps d d = true.
Proof. unfold same_deps. now rewrite !same_dep_refl. Qed.

Lemma same_deps_status (j1 j2 : option JobStatus) :
  same_deps (poll_deps j1) (poll_deps j2) = true ->
  option_map status j1 = option_map status j2.
Proof.
  unfold same_deps, poll_deps; simpl.
  intros H. apply andb_prop in H as [_ H].
  destruct j1, j2; simpl in *; try discriminate; auto.
  apply String.eqb_eq in H. now rewrite H.
Qed.

Lemma same_deps_allowed (j1 j2 : option JobStatus) :
  same_deps (poll_deps j1) (poll_deps j2) = true ->
  polling_allowed j1 = polling_allowed j2.
Proof.
  intros H. apply same_deps_status in H.
  destruct j1, j2; simpl in *; try discriminate; auto.
  now injection H as ->.
Qed.

Lemma commit_same c : commit c c = c.
Proof. unfold commit. now rewrite same_deps_refl. Qed.

Lemma poll_effect_jobStatus c : jobStatus (poll_effect c) = jobStatus c.
Proof. unfold poll_effect. destruct (jobStatus c) as [js|] eqn:E; [destruct (terminal (status js))|]; simpl; auto. Qed.

Lemma run_cleanup_jobStatus c : jobStatus (run_cleanup c) = jobStatus c.
Proof. unfold run_cleanup. now destruct (poll_cleanup c). Qed.

Lemma commit_jobStatus c a : jobStatus (commit c a) = jobStatus a.
Proof.
  unfold commit. destruct (same_deps _ _); auto.
  now rewrite poll_effect_jobStatus, run_cleanup_jobStatus.
Qed.

(** What the render after a handler leaves alone: the form, the error
    shown, and the traces of requests, console, alerts and saved files. *)
Lemma commit_untouched c a :
  form (commit c a) = form a /\ error (commit c a) = error a
  /\ fetched (commit c a) = fetched a /\ console (commit c a) = console a
  /\ alerts (commit c a) = alerts a /\ downloads (commit c a) = downloads a.
Proof.
  unfold commit, poll_effect, run_cleanup.
  destruct (same_deps _ _); [tauto|].
  destruct (poll_cleanup a); simpl;
    (destruct (jobStatus a) as [js|]; [destruct (terminal (status js))|]);
    simpl; tauto.
Qed.

End PollingFacts.

(** ** Coherence of the live intervals is an invariant *)

Section Coherence.
(* the base URL of the page *)
Variable base : string.
Context {F : Type}.
Implicit Type c : Client F.

Lemma coherent_spec c :
  coherent c = true <->
  (forall t, In t (timers c) -> poll_cleanup c = Some (fst t))
  /\ (polling_allowed (jobStatus c) = true \/ timers c = []).
Proof.
  unfold coherent. rewrite andb_true_iff, orb_true_iff, forallb_forall.
  assert (Hnil : is_nil (timers c) = true <-> timers c = [])
    by (destruct (timers c); simpl; split; congruence).
  assert (Hh : forall t : nat * string,
             same_handle (poll_cleanup c) (fst t) = true
             <-> poll_cleanup c = Some (fst t)).
  { intros t. destruct (poll_cleanup c) as [k|]; simpl.
    - rewrite Nat.eqb_eq. split; congruence.
    - split; discriminate. }
  rewrite Hnil. split; intros [H1 H2]; split; auto; intros t Ht; apply Hh; auto.
Qed.

(** When the last effect run owns every live interval, its cleanup
    leaves none. *)
Lemma run_cleanup_no_timers c :
  (forall t, In t (timers c) -> poll_cleanup c = Some (fst t)) ->
  timers (run_cleanup c) = [].
Proof.
  intros Hown. unfold run_cleanup.
  destruct (poll_cleanup c) as [k|] eqn:Ek.
  - simpl. destruct (filter _ (timers c)) as [|t l] eqn:Ef; auto.
    assert (Ht : In t (filter (fun t => negb (fst t =? k)%nat) (timers c)))
      by (rewrite Ef; now left).
    apply filter_In in Ht as [Hin Hne].
    apply Hown in Hin. injection Hin as ->.
    now rewrite Nat.eqb_refl in Hne.
  - destruct (timers c) as [|t l]; auto.
    specialize (Hown t (or_introl eq_refl)). discriminate.
Qed.

Lemma poll_effect_coherent c :
  timers c = [] -> coherent (poll_effect c) = true.
Proof.
  intros Hnil. unfold poll_effect.
  destruct (jobStatus c) as [js|] eqn:Ej.
  - destruct (terminal (status js)) eqn:Et; unfold coherent; simpl;
      rewrite Hnil, ?Ej; simpl; rewrite ?Et, ?Nat.eqb_refl; auto using orb_true_r.
  - unfold coherent; simpl. rewrite Hnil. simpl. auto using orb_true_r.
Qed.

(** A handler that sets no interval of its own and leaves the cleanup
    alone keeps the client coherent through the following render. *)
Lemma commit_coherent c a :
  coherent c = true ->
  poll_cleanup a = poll_cleanup c ->
  (forall t, In t (timers a) -> In t (timers c)) ->
  coherent (commit c a) = true.
Proof.
  intros Hc Hk Hsub. apply coherent_spec in Hc as [Hown Hlive].
  assert (Hown' : forall t, In t (timers a) -> poll_cleanup a = Some (fst t))
    by (intros t Ht; rewrite Hk; auto).
  unfold commit. destruct (same_deps _ _) eqn:Ed.
  - apply coherent_spec. split; auto.
    rewrite <- (same_deps_allowed _ _ Ed).
    destruct Hlive as [Hl|Hl]; auto.
    right. destruct (timers a) as [|t l]; auto.
    specialize (Hsub t (or_introl eq_refl)). rewrite Hl in Hsub. destruct Hsub.
  - apply poll_effect_coherent, run_cleanup_no_timers, Hown'.
Qed.

Lemma clearInterval_subset h c t :
  In t (timers (clearInterval h c)) -> In t (timers c).
Proof. simpl. intros H. now apply filter_In in H. Qed.

Lemma interval_tick_shape h c :
  poll_cleanup (interval_tick base h c) = poll_cleanup c
  /\ timers (interval_tick base h c) = timers c
  /\ jobStatus (interval_tick base h c) = jobStatus c.
Proof. unfold interval_tick. destruct (timer_job h c); simpl; auto. Qed.

Lemma interval_resume_shape h r c :
  poll_cleanup (interval_resume h r c) = poll_cleanup c
  /\ forall t, In t (timers (interval_resume h r c)) -> In t (timers c).
Proof.
  unfold interval_resume. destruct r as [e|code d|st]; simpl; auto.
  destruct (terminal (status st)); simpl; split; auto.
  intros t Ht. now apply filter_In in Ht.
Qed.

Lemma poll_step_coherent c ev :
  coherent c = true -> coherent (poll_step base c ev) = true.
Proof.
  intros Hc. destruct ev as [h|h r]; simpl; apply commit_coherent; auto.
  - apply interval_tick_shape.
  - intros t. now rewrite (proj1 (proj2 (interval_tick_shape h c))).
  - apply interval_resume_shape.
  - apply interval_resume_shape.
Qed.

Lemma poll_run_coherent evs c :
  coherent c = true -> coherent (poll_run base c evs) = true.
Proof.
  revert c. induction evs as [|ev evs IH]; intros c Hc; simpl; auto.
  apply IH, poll_step_coherent, Hc.
Qed.

Lemma mount_coherent (f : F) : coherent (mount f) = true.
Proof. reflexivity. Qed.

(** Without a live interval a tick does nothing at all. *)
Lemma tick_without_timers c h :
  timers c = [] -> poll_step base c (Tick h) = c.
Proof.
  intros Hnil. simpl. unfold interval_tick, timer_job. rewrite Hnil. simpl.
  apply commit_same.
Qed.

Lemma ticks_without_timers c (hs : list nat) :
  timers c = [] -> poll_run base c (map Tick hs) = c.
Proof.
  intros Hnil. induction hs as [|h hs IH]; simpl; auto.
  unfold poll_run in IH. simpl in IH |- *.
  unfold interval_tick, timer_job. rewrite Hnil. simpl.
  now rewrite commit_same.
Qed.

(** A reply with a terminal status leaves no interval alive. *)
Lemma terminal_reply_no_timers c h st :
  coherent c = true -> terminal (status st) = true ->
  timers (poll_step base c (Resume h (Ok st))) = [].
Proof.
  intros Hc Ht. apply coherent_spec in Hc as [Hown Hlive].
  simpl. unfold interval_resume. simpl. rewrite Ht.
  unfold commit. simpl.
  destruct (same_deps _ _) eqn:Ed.
  - apply same_deps_allowed in Ed. simpl in Ed. rewrite Ht in Ed. simpl in Ed.
    destruct Hlive as [Hl|Hl]; [congruence|]. simpl. now rewrite Hl.
  - match goal with |- timers (poll_effect ?x) = _ =>
      assert (Hx : timers x = []) end.
    { apply run_cleanup_no_timers. simpl. intros t Hin.
      apply filter_In in Hin as [Hin _]. auto. }
    unfold poll_effect.
    rewrite run_cleanup_jobStatus. simpl. rewrite Ht. simpl. exact Hx.
Qed.

End Coherence.

(** ** The polling timer *)

Section PollingClaims.
(* the base URL of the page *)
Variable base : string.
Context {F : Type}.
Implicit Type c : Client F.

Lemma poll_step_jobStatus c ev :
  jobStatus (poll_step base c ev) =
  match ev with
  | Resume _ (Ok st) => Some st
  | _ => jobStatus c
  end.
Proof.
  destruct ev as [h|h [e|code d|st]]; simpl; rewrite commit_jobStatus.
  - apply interval_tick_shape.
  - reflexivity.
  - reflexivity.
  - unfold interval_resume. simpl. now destruct (terminal (status st)).
Qed.

(** With no interval alive and no job in progress, a tick, a failed
    reply or a reply with status completed or failed starts no interval
    and issues no request. *)
Lemma quiet_step c (ev : PollEvent) :
  coherent c = true -> timers c = [] ->
  installs_running_job ev = false ->
  timers (poll_step base c ev) = [] /\ fetched (poll_step base c ev) = fetched c.
Proof.
  intros Hc Hnil Hev. destruct ev as [h|h [e|code d|st]].
  - change (poll_step base c (Tick h)) with (poll_run base c (map Tick [h])).
    rewrite ticks_without_timers; auto.
  - simpl. unfold interval_resume. simpl. unfold commit. simpl.
    rewrite same_deps_refl. simpl. auto.
  - simpl. unfold interval_resume. simpl. unfold commit. simpl.
    rewrite same_deps_refl. simpl. auto.
  - simpl in Hev. apply negb_false_iff in Hev. split.
    + now apply terminal_reply_no_timers.
    + simpl. rewrite (proj1 (proj2 (proj2 (commit_untouched _ _)))).
      unfold interval_resume. simpl. now rewrite Hev.
Qed.

Lemma quiet_run (evs : list PollEvent) :
  forall c, coherent c = true -> timers c = [] ->
  existsb installs_running_job evs = false ->
  timers (poll_run base c evs) = [] /\ fetched (poll_run base c evs) = fetched c.
Proof.
  induction evs as [|ev evs IH]; intros c Hc Hnil Hq; [simpl; auto|].
  simpl in Hq. apply orb_false_iff in Hq as [Hev Hq].
  destruct (quiet_step c ev Hc Hnil Hev) as [Ht Hf].
  destruct (IH (poll_step base c ev) (poll_step_coherent base c ev Hc) Ht Hq)
    as [Ht' Hf'].
  change (poll_run base c (ev :: evs)) with (poll_run base (poll_step base c ev) evs).
  now rewrite Ht', Hf', Hf.
Qed.

(** C1, as corrected.  When a poll is answered with status "completed"
    or "failed", the reply becomes the snapshot and no interval is left
    alive; and whatever follows (ticks in any number, failed replies,
    further replies with status completed or failed), no request is
    issued and no interval starts, as long as no reply with another
    status arrives: the requests sent stay exactly those sent before. *)
Theorem terminal_reply_stops_polling c (h : nat) (st : JobStatus)
    (later : list PollEvent) :
  coherent c = true ->
  terminal (status st) = true ->
  existsb installs_running_job later = false ->
  let c' := poll_step base c (Resume h (Ok st)) in
  jobStatus c' = Some st
  /\ timers c' = []
  /\ timers (poll_run base c' later) = []
  /\ fetched (poll_run base c' later) = fetched c'.
Proof.
  intros Hc Ht Hq c'. subst c'.
  pose proof (terminal_reply_no_timers base c h st Hc Ht) as Hnil.
  split; [apply poll_step_jobStatus|]. split; [exact Hnil|].
  apply quiet_run; auto. now apply poll_step_coherent.
Qed.

(** C3.  When the status request of a poll fails (the fetch is rejected
    or the response is not ok), the error is logged: the console gains
    the one entry "Failed to get job status:" with the error thrown by
    [getJobStatus] (the rejection itself, or the error "Failed to get
    job status" for a response that is not ok).  Nothing else changes:
    the snapshot, the error shown to the user, the alerts, the loading
    flag and the live interval are as before; and a later successful
    reply becomes the snapshot. *)
Theorem failed_poll_keeps_snapshot c (h : nat) (r : Reply JobStatus) :
  failed_reply r = true ->
  let c' := poll_step base c (Resume h r) in
  console c' = console c ++ [("Failed to get job status:", getJobStatus_error r)]
  /\ c' = console_error "Failed to get job status:" (getJobStatus_error r) c
  /\ jobStatus c' = jobStatus c
  /\ error c' = error c
  /\ alerts c' = alerts c
  /\ isLoading c' = isLoading c
  /\ timers c' = timers c
  /\ fetched c' = fetched c
  /\ forall h' st, jobStatus (poll_step base c' (Resume h' (Ok st))) = Some st.
Proof.
  intros Hr c'.
  assert (E : c' = console_error "Failed to get job status:" (getJobStatus_error r) c).
  { subst c'. destruct r as [e|code d|st]; [| |discriminate]; simpl;
      unfold interval_resume, commit; simpl; rewrite same_deps_refl; reflexivity. }
  split; [now rewrite E|]. split; [exact E|]. rewrite E. simpl.
  repeat split; auto. intros h' st.
  exact (poll_step_jobStatus _ (Resume h' (Ok st))).
Qed.

(** *** Progress across polls *)

Lemma progress_step_refl (a : JobStatus) : progress_step_ok a a = true.
Proof. unfold progress_step_ok. destruct (_ && _); auto using Z.leb_refl. Qed.

Lemma progress_monotone_stutter (a : JobStatus) (l : list JobStatus) :
  progress_monotone (a :: a :: l) = progress_monotone (a :: l).
Proof. change (progress_monotone (a :: a :: l))
         with (progress_step_ok a a && progress_monotone (a :: l)).
       now rewrite progress_step_refl. Qed.

Lemma progress_monotone_cons (j : option JobStatus) (st : JobStatus) (l l' : list JobStatus) :
  (progress_monotone (st :: l) = true -> progress_monotone (st :: l') = true) ->
  progress_monotone (snapshot_list j ++ st :: l) = true ->
  progress_monotone (snapshot_list j ++ st :: l') = true.
Proof.
  destruct j as [a|]; simpl snapshot_list; simpl app; auto.
  change (progress_monotone (a :: st :: l))
    with (progress_step_ok a st && progress_monotone (st :: l)).
  change (progress_monotone (a :: st :: l'))
    with (progress_step_ok a st && progress_monotone (st :: l')).
  rewrite !andb_true_iff. intuition.
Qed.

(** C2, as corrected.  The client stores each reply as it comes and
    compares nothing: the snapshots it holds never decrease in progress
    while pending or running provided the job states delivered to it,
    after the snapshot it starts from, do not. *)
Theorem held_progress_follows_delivered c (evs : list PollEvent) :
  progress_monotone (snapshot_list (jobStatus c) ++ delivered evs) = true ->
  progress_monotone (held base c evs) = true.
Proof.
  unfold held. revert c.
  induction evs as [|ev evs IH]; intros c H; simpl history.
  - exact H.
  - specialize (IH (poll_step base c ev)).
    rewrite poll_step_jobStatus in *.
    destruct ev as [h|h [e|code d|st]]; simpl delivered in H;
      try (destruct (jobStatus c) as [a|]; simpl snapshot_list in *; simpl app in *;
           [rewrite progress_monotone_stutter|]; now apply IH).
    simpl snapshot_list in *. simpl app in IH |- *.
    revert H. apply progress_monotone_cons. exact IH.
Qed.

End PollingClaims.

(** A run on the sample client: the job is reported completed on the
    first poll; then come a tick, the reply of a second poll that fails,
    another completed reply and two more ticks. *)
Lemma terminal_reply_stops_polling_example :
  coherent Sample.tcs_pending = true
  /\ timers Sample.tcs_pending = [(0, "j1")]
  /\ timers (Sample.tcs_done None) = []
  /\ fetched (poll_run (API_BASE "production") (Sample.tcs_done None)
                [Tick 0; Resume 0 (Rejected (Error "Failed to fetch"));
                 Resume 0 (Ok (Sample.completed "j1" None)); Tick 0; Tick 1])
     = fetched (Sample.tcs_done None).
Proof.
  split; [reflexivity|]. split; [reflexivity|].
  pose proof (terminal_reply_stops_polling (API_BASE "production") Sample.tcs_pending 0
                (Sample.completed "j1" None)
                [Tick 0; Resume 0 (Rejected (Error "Failed to fetch"));
                 Resume 0 (Ok (Sample.completed "j1" None)); Tick 0; Tick 1]
                eq_refl eq_refl eq_refl) as H.
  split; [exact (proj1 (proj2 H))|exact (proj2 (proj2 (proj2 H)))].
Defined.

(** C1 fails as stated.  Two ticks of the sample client's interval come
    before any reply, so two polls are outstanding.  The reply of the
    second arrives first and reports the job completed: no interval is
    left.  Then the reply of the first arrives, reporting the job
    running at 50: it becomes the snapshot, the effect starts the
    interval 1, and its tick issues a third poll, after the completed
    reply. *)
Lemma poll_after_terminal_reply :
  let stopped :=
    poll_run (API_BASE "production") Sample.tcs_pending
      [Tick 0; Tick 0; Resume 0 (Ok (Sample.completed "j1" None))] in
  let late := poll_step (API_BASE "production") stopped
                (Resume 0 (Ok (Sample.running "j1" 50))) in
  jobStatus stopped = Some (Sample.completed "j1" None)
  /\ timers stopped = []
  /\ length (fetched stopped) = 3%nat
  /\ timers late = [(1, "j1")]
  /\ fetched (poll_step (API_BASE "production") late (Tick 1))
     = fetched stopped ++ [get "/api/job/j1"].
Proof. repeat split; reflexivity. Qed.

(** A poll of the sample client is rejected, and the next one reports
    progress 40. *)
Lemma failed_poll_keeps_snapshot_example :
  console (poll_step (API_BASE "production") Sample.tcs_pending
             (Resume 0 (Rejected (Error "Failed to fetch"))))
  = [("Failed to get job status:", Error "Failed to fetch")]
  /\ jobStatus (poll_step (API_BASE "production") Sample.tcs_pending
                  (Resume 0 (Rejected (Error "Failed to fetch"))))
     = Some (pending_job "j1")
  /\ jobStatus (poll_run (API_BASE "production") Sample.tcs_pending
                  [Tick 0; Resume 0 (Rejected (Error "Failed to fetch"));
                   Tick 0; Resume 0 (Ok (Sample.running "j1" 40))])
     = Some (Sample.running "j1" 40).
Proof.
  pose proof (failed_poll_keeps_snapshot (API_BASE "production") Sample.tcs_pending 0
                (Rejected (Error "Failed to fetch")) eq_refl) as H.
  split; [exact (proj1 H)|]. split; [exact (proj1 (proj2 (proj2 H)))|reflexivity].
Defined.

(** C2 fails as stated: the status endpoint reports progress 50 and then
    progress 30 for the running job, and the client holds the two
    snapshots in that order. *)
Lemma held_progress_can_decrease :
  held (API_BASE "production") Sample.tcs_pending
    [Tick 0; Resume 0 (Ok (Sample.running "j1" 50));
     Tick 1; Resume 1 (Ok (Sample.running "j1" 30))]
  = [pending_job "j1"; pending_job "j1"; Sample.running "j1" 50;
     Sample.running "j1" 50; Sample.running "j1" 30]
  /\ progress_monotone
       (held (API_BASE "production") Sample.tcs_pending
          [Tick 0; Resume 0 (Ok (Sample.running "j1" 50));
           Tick 1; Resume 1 (Ok (Sample.running "j1" 30))]) = false.
Proof. split; reflexivity. Qed.

(** Replies in increasing progress, a rejected poll in between. *)
Lemma held_progress_follows_delivered_example :
  progress_monotone
    (held (API_BASE "production") Sample.tcs_pending
       [Tick 0; Resume 0 (Ok (Sample.running "j1" 30));
        Tick 1; Resume 1 (Rejected (Error "Failed to fetch"));
        Tick 1; Resume 1 (Ok (Sample.running "j1" 50))]) = true.
Proof.
  exact (held_progress_follows_delivered (API_BASE "production") Sample.tcs_pending
           [Tick 0; Resume 0 (Ok (Sample.running "j1" 30));
            Tick 1; Resume 1 (Rejected (Error "Failed to fetch"));
            Tick 1; Resume 1 (Ok (Sample.running "j1" 50))] eq_refl).
Defined.

(** ** Submission *)

Section SubmissionFacts.
Variable NODE_ENV : string.

(** After a render that finds no snapshot, no interval is alive. *)
Lemma commit_no_job_no_timers {F : Type} (c a : Client F) :
  coherent c = true ->
  poll_cleanup a = poll_cleanup c ->
  (forall t, In t (timers a) -> In t (timers c)) ->
  jobStatus a = None ->
  timers (commit c a) = [].
Proof.
  intros Hc Hk Hsub Hj.
  pose proof (commit_coherent c a Hc Hk Hsub) as H.
  apply coherent_spec in H as [_ [H|H]]; auto.
  rewrite commit_jobStatus, Hj in H. discriminate.
Qed.

Lemma current_begin_shape (c : Client Current.Form) :
  let c1 := snd (Current.handleGenerate_begin NODE_ENV c) in
  poll_cleanup c1 = poll_cleanup c /\ timers c1 = timers c.
Proof.
  unfold Current.handleGenerate_begin.
  repeat match goal with
         | |- context [if ?b then _ else _] => destruct b
         | |- context [match ?x with _ => _ end] => destruct x
         end; simpl; auto.
Qed.

Lemma older_begin_shape (c : Client Older.Form) :
  let c1 := snd (Older.handleGenerate_begin c) in
  poll_cleanup c1 = poll_cleanup c /\ timers c1 = timers c.
Proof.
  unfold Older.handleGenerate_begin.
  repeat match goal with
         | |- context [if ?b then _ else _] => destruct b
         | |- context [match ?x with _ => _ end] => destruct x
         end; simpl; auto.
Qed.

(** When the guards of [handleGenerate] let the click through, the three
    state updates have been made and the snapshot is empty. *)
Lemma current_begin_call (c : Client Current.Form) (k : Current.Call) :
  fst (Current.handleGenerate_begin NODE_ENV c) = Some k ->
  exists q, snd (Current.handleGenerate_begin NODE_ENV c)
            = fetch q (setJobStatus None (setError None (setIsLoading true c))).
Proof.
  unfold Current.handleGenerate_begin.
  repeat match goal with
         | |- context [if ?b then _ else _] => destruct b
         | |- context [match ?x with _ => _ end] => destruct x
         end; simpl; intros H; try discriminate; eauto.
Qed.

Lemma older_begin_call (c : Client Older.Form) (k : Older.Call) :
  fst (Older.handleGenerate_begin c) = Some k ->
  exists q, snd (Older.handleGenerate_begin c)
            = fetch q (setJobStatus None (setError None (setIsLoading true c))).
Proof.
  unfold Older.handleGenerate_begin.
  repeat match goal with
         | |- context [if ?b then _ else _] => destruct b
         | |- context [match ?x with _ => _ end] => destruct x
         end; simpl; intros H; try discriminate; eauto.
Qed.

Lemma current_handleGenerate_coherent (r : Reply string) (c : Client Current.Form) :
  coherent c = true -> coherent (Current.handleGenerate NODE_ENV r c) = true.
Proof.
  intros Hc. unfold Current.handleGenerate.
  pose proof (current_begin_shape c) as [Hk Ht].
  destruct (Current.handleGenerate_begin NODE_ENV c) as [k c1]. simpl in Hk, Ht.
  assert (H2 : coherent (commit c c1) = true)
    by (apply commit_coherent; auto; now rewrite Ht).
  destruct k as [call|]; auto.
  apply commit_coherent; auto;
    unfold Current.handleGenerate_resume;
    destruct (Current.call_result call r) as [jid|e]; simpl; auto.
Qed.

Lemma older_handleGenerate_coherent (r : Reply string) (c : Client Older.Form) :
  coherent c = true -> coherent (Older.handleGenerate r c) = true.
Proof.
  intros Hc. unfold Older.handleGenerate.
  pose proof (older_begin_shape c) as [Hk Ht].
  destruct (Older.handleGenerate_begin c) as [k c1]. simpl in Hk, Ht.
  assert (H2 : coherent (commit c c1) = true)
    by (apply commit_coherent; auto; now rewrite Ht).
  destruct k as [call|]; auto.
  apply commit_coherent; auto;
    unfold Older.handleGenerate_resume;
    destruct (Older.call_result call r) as [jid|e]; simpl; auto.
Qed.

Lemma select_stock_coherent (s : Stock) (c : Client Current.Form) :
  coherent c = true -> coherent (Current.select_stock s c) = true.
Proof. intros Hc. unfold Current.select_stock. now apply commit_coherent. Qed.

Lemma generate_another_coherent (c : Client Current.Form) :
  coherent c = true -> coherent (Current.generate_another c) = true.
Proof. intros Hc. unfold Current.generate_another. now apply commit_coherent. Qed.

Lemma current_download_shape (r : BlobReply) (c : Client Current.Form) :
  jobStatus (Current.download_click r c) = jobStatus c
  /\ poll_cleanup (Current.download_click r c) = poll_cleanup c
  /\ timers (Current.download_click r c) = timers c.
Proof.
  unfold Current.download_click.
  destruct (jobStatus c) as [js|] eqn:Ej; auto.
  destruct (download_url js); auto.
  destruct (Current.download_shown js); auto.
  destruct r; simpl; auto.
Qed.

Lemma current_export_shape (f : ExportFormat) (r : BlobReply) (c : Client Current.Form) :
  jobStatus (Current.export_click NODE_ENV f r c) = jobStatus c
  /\ poll_cleanup (Current.export_click NODE_ENV f r c) = poll_cleanup c
  /\ timers (Current.export_click NODE_ENV f r c) = timers c.
Proof.
  unfold Current.export_click.
  destruct (jobStatus c) as [js|] eqn:Ej; auto.
  destruct (Current.download_shown js); auto.
  destruct r as [e|ok code blob]; simpl; auto.
  destruct ok; simpl; auto.
Qed.

Lemma coherent_same_polling {F G : Type} (c : Client F) (a : Client G) :
  jobStatus a = jobStatus c -> poll_cleanup a = poll_cleanup c ->
  timers a = timers c -> coherent c = true -> coherent a = true.
Proof. unfold coherent. now intros -> -> ->. Qed.

(** Every client the current page can be in is coherent. *)
Lemma current_reachable_coherent (c : Client Current.Form) :
  Current.reachable NODE_ENV c -> coherent c = true.
Proof.
  induction 1 as [|c f _ IH|c _ IH|c k r _ IH|c s _ IH|c _ IH|c ev _ IH
                  |c r _ IH|c f r _ IH].
  - reflexivity.
  - exact IH.
  - pose proof (current_begin_shape c) as [Hk Ht].
    apply commit_coherent; auto. now rewrite Ht.
  - apply commit_coherent; auto;
      unfold Current.handleGenerate_resume;
      destruct (Current.call_result k r); simpl; auto.
  - now apply select_stock_coherent.
  - now apply generate_another_coherent.
  - now apply poll_step_coherent.
  - destruct (current_download_shape r c) as (Hj & Hk & Ht).
    now apply (coherent_same_polling c).
  - destruct (current_export_shape f r c) as (Hj & Hk & Ht).
    now apply (coherent_same_polling c).
Qed.

(** Every client the older page can be in is coherent. *)
Lemma older_reachable_coherent (c : Client Older.Form) :
  Older.reachable c -> coherent c = true.
Proof.
  induction 1 as [|c f _ IH|c _ IH|c k r _ IH|c s _ IH|c _ IH|c ev _ IH].
  - reflexivity.
  - exact IH.
  - pose proof (older_begin_shape c) as [Hk Ht].
    apply commit_coherent; auto. now rewrite Ht.
  - apply commit_coherent; auto;
      unfold Older.handleGenerate_resume;
      destruct (Older.call_result k r); simpl; auto.
  - unfold Older.select_stock. now apply commit_coherent.
  - unfold Older.generate_another. now apply commit_coherent.
  - now apply poll_step_coherent.
Qed.

(** A click on "Generate Model" together with its reply is two steps. *)
Lemma current_handleGenerate_reachable (r : Reply string) (c : Client Current.Form) :
  Current.reachable NODE_ENV c ->
  Current.reachable NODE_ENV (Current.handleGenerate NODE_ENV r c).
Proof.
  intros Hc. unfold Current.handleGenerate.
  pose proof (Current.reach_generate NODE_ENV c Hc) as H1.
  destruct (Current.handleGenerate_begin NODE_ENV c) as [k c1]. simpl in H1.
  destruct k as [call|]; auto.
  now apply Current.reach_generate_reply.
Qed.

(** Discarding the job (another stock is picked, or "Generate Another
    Model") leaves no interval alive. *)
Lemma discard_stops_polling (s : Stock) (c : Client Current.Form) :
  coherent c = true ->
  timers (Current.select_stock s c) = []
  /\ timers (Current.generate_another c) = [].
Proof.
  intros Hc. split.
  - unfold Current.select_stock. now apply commit_no_job_no_timers.
  - unfold Current.generate_another. now apply commit_no_job_no_timers.
Qed.

End SubmissionFacts.

Section CommitFields.
Context {F : Type}.
Implicit Type c a : Client F.

Lemma commit_fetched c a : fetched (commit c a) = fetched a.
Proof. apply commit_untouched. Qed.

Lemma commit_error c a : error (commit c a) = error a.
Proof. apply commit_untouched. Qed.

Lemma commit_no_job c a :
  jobStatus c = None -> jobStatus a = None -> commit c a = a.
Proof. intros Hc Ha. unfold commit. now rewrite Hc, Ha. Qed.

End CommitFields.

Lemma or_else_nonempty (o : option string) (d : string) :
  d <> "" -> JS.or_else o d <> "".
Proof.
  intros Hd. unfold JS.or_else. destruct o as [s|]; auto.
  destruct (s =? "") eqn:E; auto. now apply String.eqb_neq in E.
Qed.

(** C4.  When the field a tab requires is missing (no stock on "stocks"
    or "lbo", no file on "excel", no acquirer or no target on "ma", an
    empty company name on "raw" of the older page), a click on
    "Generate Model" changes nothing: no request is issued and an empty
    snapshot stays empty. *)
Theorem missing_field_submits_nothing (NODE_ENV : string) (r : Reply string) :
  (forall c : Client Current.Form,
      Current.missing_required (form c) = true ->
      let c' := Current.handleGenerate NODE_ENV r c in
      fetched c' = fetched c
      /\ (jobStatus c = None -> jobStatus c' = None)
      /\ c' = c)
  /\ (forall c : Client Older.Form,
         Older.missing_required (form c) = true ->
         let c' := Older.handleGenerate r c in
         fetched c' = fetched c
         /\ (jobStatus c = None -> jobStatus c' = None)
         /\ c' = c).
Proof.
  split; intros c Hm c'.
  - assert (E : c' = c); [|rewrite E; auto].
    subst c'. unfold Current.handleGenerate, Current.handleGenerate_begin.
    unfold Current.missing_required in Hm.
    destruct (Current.activeTab (form c)); simpl in *; try discriminate;
      rewrite Hm; simpl; apply commit_same.
  - assert (E : c' = c); [|rewrite E; auto].
    subst c'. unfold Older.handleGenerate, Older.handleGenerate_begin.
    unfold Older.missing_required in Hm.
    destruct (Older.activeTab (form c)); simpl in *.
    + rewrite Hm. simpl. apply commit_same.
    + apply String.eqb_eq in Hm. rewrite Hm. simpl. apply commit_same.
Qed.

(** On the current page: "excel" without a file; on the older page: "raw"
    with the empty company name. *)
Lemma missing_field_submits_nothing_example :
  fetched (Current.handleGenerate "production" (Ok "j1")
             (mount (Current.setActiveTab Current.excel Current.initial_form))) = []
  /\ jobStatus (Older.handleGenerate (Ok "j1") Sample.raw_empty) = None.
Proof.
  split.
  - exact (proj1 (proj1 (missing_field_submits_nothing "production" (Ok "j1"))
                    (mount (Current.setActiveTab Current.excel Current.initial_form))
                    eq_refl)).
  - exact (proj1 (proj2 (proj2 (missing_field_submits_nothing "production" (Ok "j1"))
                           Sample.raw_empty eq_refl)) eq_refl).
Defined.

(** C5.  On the "stocks" tab with TCS selected and five forecast years,
    "Generate Model" issues exactly one request, the POST to
    /api/model/generate with the body
    {symbol:"TCS", exchange:"NSE", forecast_years:5,
     model_types:["three_statement","dcf"]},
    and when the reply carries a job id the snapshot is that job,
    pending at progress 0. *)
Theorem tcs_submission (NODE_ENV : string) (c : Client Current.Form)
    (s : Stock) (jid : string) :
  Current.activeTab (form c) = Current.stocks ->
  Current.selectedStock (form c) = Some s ->
  symbol s = "TCS" ->
  Current.forecastYears (form c) = 5%Z ->
  let c' := Current.handleGenerate NODE_ENV (Ok jid) c in
  fetched c' =
    fetched c ++
    [ {| method := POST;
         url := API_BASE NODE_ENV ++ "/api/model/generate";
         headers := [("Content-Type", "application/json")];
         body := JsonBody
                   (JObj [("symbol", JStr "TCS");
                          ("exchange", JStr "NSE");
                          ("forecast_years", JInt 5);
                          ("model_types", JArr [JStr "three_statement"; JStr "dcf"])]) |} ]
  /\ jobStatus c' =
       Some {| job_id := jid; status := "pending"; progress := 0;
               message := "Starting..."; company_name := None; industry := None;
               download_url := None; filename := None; validation := None |}.
Proof.
  intros Htab Hsel Hsym Hy c'. subst c'.
  unfold Current.handleGenerate, Current.handleGenerate_begin.
  rewrite Htab, Hsel. simpl. rewrite Hsym, Hy.
  unfold Current.handleGenerate_resume. simpl. split.
  - rewrite commit_fetched.
    change (fetched (setJobStatus ?j ?x)) with (fetched x).
    now rewrite commit_fetched.
  - now rewrite commit_jobStatus.
Qed.

Lemma tcs_submission_example :
  jobStatus Sample.tcs_pending = Some (pending_job "j1")
  /\ length (fetched Sample.tcs_pending) = 1%nat
  /\ timers Sample.tcs_pending = [(0, "j1")].
Proof.
  split; [|split; reflexivity].
  exact (proj2 (tcs_submission "production" Sample.tcs_selected Sample.tcs "j1"
                  eq_refl eq_refl eq_refl eq_refl)).
Defined.

(** C6.  When the request of a submission is answered by a response that
    is not ok, exactly that one request has been issued, the message of
    the error thrown by the API function (on the older page: the fixed
    text) is set for display and is not empty, the snapshot is empty, the
    loading flag is off, and no interval is alive, so that no tick
    issues a poll. *)
Theorem rejected_submission_shows_error
    (NODE_ENV : string) (code : nat) (detail : option string) :
  (forall (c : Client Current.Form) (k : Current.Call),
      coherent c = true ->
      fst (Current.handleGenerate_begin NODE_ENV c) = Some k ->
      let c' := Current.handleGenerate NODE_ENV (NotOk code detail) c in
      exists msg q,
        Current.call_result k (NotOk code detail) = Threw (Error msg)
        /\ error c' = Some msg /\ msg <> ""
        /\ fetched c' = fetched c ++ [q]
        /\ jobStatus c' = None /\ isLoading c' = false /\ timers c' = []
        /\ forall later, fetched (poll_run (API_BASE NODE_ENV) c' (map Tick later)) = fetched c')
  /\ (forall (c : Client Older.Form) (k : Older.Call),
         coherent c = true ->
         fst (Older.handleGenerate_begin c) = Some k ->
         let c' := Older.handleGenerate (NotOk code detail) c in
         exists q,
           error c' = Some "Failed to start model generation. Please try again."
           /\ fetched c' = fetched c ++ [q]
           /\ jobStatus c' = None /\ isLoading c' = false /\ timers c' = []
           /\ forall later, fetched (poll_run Older.API_BASE c' (map Tick later)) = fetched c').
Proof.
  split; intros c k Hc Hk c'.
  - destruct (current_begin_call NODE_ENV c k Hk) as [q Hq].
    assert (Hmsg : exists msg, Current.call_result k (NotOk code detail) = Threw (Error msg)
                               /\ msg <> "").
    { destruct k; simpl; eexists; (split; [reflexivity|]);
        try discriminate.
      apply or_else_nonempty. discriminate. }
    destruct Hmsg as [msg [Hres Hne]].
    set (c2 := commit c (fetch q (setJobStatus None (setError None (setIsLoading true c))))).
    assert (Hj2 : jobStatus c2 = None) by (unfold c2; now rewrite commit_jobStatus).
    assert (Ht2 : timers c2 = [])
      by (unfold c2; apply commit_no_job_no_timers; auto).
    assert (E : c' = setIsLoading false (setError (Some msg) c2)).
    { subst c'. unfold Current.handleGenerate.
      destruct (Current.handleGenerate_begin NODE_ENV c) as [k' c1].
      simpl in Hk, Hq. subst k' c1. fold c2.
      unfold Current.handleGenerate_resume. rewrite Hres.
      apply commit_no_job; auto. }
    exists msg, q. rewrite E. simpl. repeat split; auto.
    + unfold c2. now rewrite commit_fetched.
    + intros later. now rewrite ticks_without_timers.
  - destruct (older_begin_call c k Hk) as [q Hq].
    set (c2 := commit c (fetch q (setJobStatus None (setError None (setIsLoading true c))))).
    assert (Hj2 : jobStatus c2 = None) by (unfold c2; now rewrite commit_jobStatus).
    assert (Ht2 : timers c2 = [])
      by (unfold c2; apply commit_no_job_no_timers; auto).
    assert (E : c' = setIsLoading false
                       (setError (Some "Failed to start model generation. Please try again.") c2)).
    { subst c'. unfold Older.handleGenerate.
      destruct (Older.handleGenerate_begin c) as [k' c1].
      simpl in Hk, Hq. subst k' c1. fold c2.
      unfold Older.handleGenerate_resume.
      assert (Hres : exists e, Older.call_result k (NotOk code detail) = Threw e)
        by (destruct k; simpl; eauto).
      destruct Hres as [e ->].
      apply commit_no_job; auto. }
    exists q. rewrite E. simpl. repeat split; auto.
    + unfold c2. now rewrite commit_fetched.
    + intros later. now rewrite ticks_without_timers.
Qed.

(** The LBO request of the current page for TCS is answered 500; the raw
    request of the older page for "Acme" is answered 422. *)
Lemma rejected_submission_shows_error_example :
  error (Current.handleGenerate "production" (NotOk 500 None)
           (setForm (Current.setActiveTab Current.lbo (form Sample.tcs_selected))
              Sample.tcs_selected))
  = Some "Failed to start LBO model generation"
  /\ error (Older.handleGenerate (NotOk 422 None)
              (mount (Older.mkForm Older.raw None 5
                        {| Older.raw_company_name := "Acme";
                           Older.raw_industry := "general";
                           Older.forecast_years := 5;
                           Older.historical_data := JObj [];
                           Older.assumptions := JObj [] |})))
     = Some "Failed to start model generation. Please try again.".
Proof.
  split.
  - destruct (proj1 (rejected_submission_shows_error "production" 500 None)
                (setForm (Current.setActiveTab Current.lbo (form Sample.tcs_selected))
                   Sample.tcs_selected)
                Current.GenerateLBOModel eq_refl eq_refl)
      as [msg [q [Hres [Herr _]]]].
    rewrite Herr. simpl in Hres. congruence.
  - destruct (proj2 (rejected_submission_shows_error "production" 422 None)
                (mount (Older.mkForm Older.raw None 5
                          {| Older.raw_company_name := "Acme";
                             Older.raw_industry := "general";
                             Older.forecast_years := 5;
                             Older.historical_data := JObj [];
                             Older.assumptions := JObj [] |}))
                Older.GenerateRawModel eq_refl eq_refl)
      as [q [Herr _]].
    exact Herr.
Defined.

(** ** Download and export *)

(** C7, as corrected.  For a completed job with a download URL, the
    download, answered 200 with a blob, issues the one request for that
    URL and saves the blob under the job's file name when that name is
    present and not empty, and under "financial_model.xlsx" when it is
    absent or empty. *)
Theorem download_saves_under_filename
    (c : Client Current.Form) (js : JobStatus) (u : string) (blob : Blob) :
  jobStatus c = Some js ->
  status js = "completed" ->
  download_url js = Some u ->
  u <> "" ->
  let c' := Current.download_click (BlobResponse true 200 blob) c in
  fetched c' = fetched c ++ [get u]
  /\ downloads c' =
       downloads c ++
       [ (match filename js with
          | Some f => if f =? "" then "financial_model.xlsx" else f
          | None => "financial_model.xlsx"
          end, blob) ].
Proof.
  intros Hj Hs Hu Hne c'. subst c'. unfold Current.download_click.
  rewrite Hj, Hu. unfold Current.download_shown. rewrite Hs, Hu. simpl.
  apply String.eqb_neq in Hne. rewrite Hne. simpl. auto.
Qed.

Lemma download_saves_under_filename_example :
  downloads (Current.download_click (BlobResponse true 200 "PK-xlsx")
               (Sample.tcs_done (Some "TCS_model.xlsx")))
  = [("TCS_model.xlsx", "PK-xlsx")]
  /\ downloads (Current.download_click (BlobResponse true 200 "PK-xlsx")
                  (Sample.tcs_done None))
     = [("financial_model.xlsx", "PK-xlsx")].
Proof.
  split.
  - exact (proj2 (download_saves_under_filename (Sample.tcs_done (Some "TCS_model.xlsx"))
                    (Sample.completed "j1" (Some "TCS_model.xlsx")) "/x" "PK-xlsx"
                    eq_refl eq_refl eq_refl ltac:(discriminate))).
  - exact (proj2 (download_saves_under_filename (Sample.tcs_done None)
                    (Sample.completed "j1" None) "/x" "PK-xlsx"
                    eq_refl eq_refl eq_refl ltac:(discriminate))).
Defined.

(** C7 fails as stated: the file name is present and empty, and the
    blob is saved under the default name. *)
Lemma download_with_empty_filename :
  filename (Sample.completed "j1" (Some "")) = Some ""
  /\ jobStatus (Sample.tcs_done (Some "")) = Some (Sample.completed "j1" (Some ""))
  /\ downloads (Current.download_click (BlobResponse true 200 "PK-xlsx")
                  (Sample.tcs_done (Some "")))
     = [("financial_model.xlsx", "PK-xlsx")]
  /\ downloads (Current.download_click (BlobResponse true 200 "PK-xlsx")
                  (Sample.tcs_done (Some "")))
     <> [("", "PK-xlsx")].
Proof. repeat split. discriminate. Qed.

(** The download never alerts and never sets the error display, whatever
    the reply: a response that is not ok has its body saved as if it
    were the model, and a rejected fetch leaves nothing behind but the
    request. *)
Lemma download_never_alerts (c : Client Current.Form) (r : BlobReply) :
  alerts (Current.download_click r c) = alerts c
  /\ error (Current.download_click r c) = error c
  /\ (forall js u code body,
         jobStatus c = Some js -> Current.download_shown js = true ->
         download_url js = Some u ->
         r = BlobResponse false code body ->
         downloads (Current.download_click r c)
         = downloads c ++ [(JS.or_else (filename js) "financial_model.xlsx", body)])
  /\ (forall js u e,
         jobStatus c = Some js -> Current.download_shown js = true ->
         download_url js = Some u ->
         r = BlobRejected e ->
         Current.download_click r c = fetch (get u) c).
Proof.
  repeat split.
  - unfold Current.download_click.
    destruct (jobStatus c) as [js|]; auto.
    destruct (download_url js); auto.
    destruct (Current.download_shown js); auto.
    destruct r; auto.
  - unfold Current.download_click.
    destruct (jobStatus c) as [js|]; auto.
    destruct (download_url js); auto.
    destruct (Current.download_shown js); auto.
    destruct r; auto.
  - intros js u code body Hj Hs Hu ->. unfold Current.download_click.
    now rewrite Hj, Hu, Hs.
  - intros js u e Hj Hs Hu ->. unfold Current.download_click.
    now rewrite Hj, Hu, Hs.
Qed.

(** The sibling path: an export whose fetch is rejected or whose
    response is not ok alerts the user, saves nothing, and leaves the
    snapshot and the error display alone. *)
Lemma export_failure_alerts (NODE_ENV : string) (c : Client Current.Form)
    (js : JobStatus) (f : ExportFormat) (r : BlobReply) :
  jobStatus c = Some js ->
  Current.download_shown js = true ->
  (forall code blob, r <> BlobResponse true code blob) ->
  let c' := Current.export_click NODE_ENV f r c in
  alerts c' = alerts c ++ [Current.export_failed f]
  /\ downloads c' = downloads c
  /\ jobStatus c' = jobStatus c
  /\ error c' = error c
  /\ fetched c' = fetched c ++ [downloadExportFile_request (API_BASE NODE_ENV) (job_id js) f].
Proof.
  intros Hj Hs Hr c'. subst c'. unfold Current.export_click.
  rewrite Hj, Hs. destruct r as [e|ok code blob]; simpl.
  - rewrite Hj. auto.
  - destruct ok; [now destruct (Hr code blob)|]. simpl. rewrite Hj. auto.
Qed.

Lemma export_failure_alerts_example :
  alerts (Current.export_click "production" pdf (BlobResponse false 500 "")
            (Sample.tcs_done None))
  = ["PDF export failed. Please try again."].
Proof.
  exact (proj1 (export_failure_alerts "production" (Sample.tcs_done None)
                  (Sample.completed "j1" None) pdf (BlobResponse false 500 "")
                  eq_refl eq_refl ltac:(discriminate))).
Defined.

(** C8, the code where it departs from the claim.  The download of the
    completed sample job is answered 404, or its fetch is rejected: no
    alert is raised in either case; the 404 page is saved under the
    name of the model, and the rejection leaves no trace but the
    request.  (The export of the same job, answered 500, does alert.) *)
Theorem download_failure_is_silent :
  alerts (Current.download_click (BlobResponse false 404 "Not Found")
            (Sample.tcs_done (Some "TCS_model.xlsx"))) = []
  /\ downloads (Current.download_click (BlobResponse false 404 "Not Found")
                  (Sample.tcs_done (Some "TCS_model.xlsx")))
     = [("TCS_model.xlsx", "Not Found")]
  /\ alerts (Current.download_click (BlobRejected (Error "Failed to fetch"))
               (Sample.tcs_done (Some "TCS_model.xlsx"))) = []
  /\ downloads (Current.download_click (BlobRejected (Error "Failed to fetch"))
                  (Sample.tcs_done (Some "TCS_model.xlsx"))) = []
  /\ alerts (Current.export_click "production" pdf (BlobResponse false 500 "")
               (Sample.tcs_done (Some "TCS_model.xlsx")))
     = ["PDF export failed. Please try again."].
Proof. repeat split. Qed.

(** ** M&A consideration *)

Lemma stock_edit_fields (v : float) (m : Current.MAAssumptions) :
  let m' := Current.ma_edit (Current.EditPercentStock v) m in
  Current.percent_stock m' = (JS.num_or v 50 / 100)%float
  /\ Current.percent_cash m' = (1 - Current.percent_stock m')%float.
Proof. split; reflexivity. Qed.

(** The inputs other than "Stock (%)" leave both shares as they are. *)
Lemma other_edits_keep_shares (e : Current.MAEdit) (m : Current.MAAssumptions) :
  (forall v, e <> Current.EditPercentStock v) ->
  Current.percent_stock (Current.ma_edit e m) = Current.percent_stock m
  /\ Current.percent_cash (Current.ma_edit e m) = Current.percent_cash m.
Proof. intros H. destruct e; simpl; auto. now destruct (H v). Qed.

Lemma initial_consideration :
  PrimFloat.eqb (Current.consideration Current.initial_ma) 1 = true.
Proof. reflexivity. Qed.

(** Every percentage from 0.00 to 100.00 in steps of 0.01, checked by
    evaluation in binary64 arithmetic. *)
Lemma entries_in_range_sum_to_one :
  forallb (fun n =>
             let stock := (JS.num_or (Current.percent_entry n) 50 / 100)%float in
             PrimFloat.eqb (stock + (1 - stock)) 1)
          (seq 0 (S (100 * 100))) = true.
Proof. vm_compute. reflexivity. Qed.

(** Entries within the range the input declares.  For every entry from
    0.00 to 100.00 in steps of 0.01 (an entry of 0 counts as 50) the
    edit stores the stock share and 1 minus it, the two add up to
    exactly 1 in binary64 arithmetic, and the check of the consideration
    mix yields no warning. *)
Lemma stock_edit_sets_cash (n : nat) (m : Current.MAAssumptions) :
  (n <= 100 * 100)%nat ->
  let m' := Current.ma_edit (Current.EditPercentStock (Current.percent_entry n)) m in
  Current.percent_stock m' = (JS.num_or (Current.percent_entry n) 50 / 100)%float
  /\ Current.percent_cash m' = (1 - Current.percent_stock m')%float
  /\ PrimFloat.eqb (Current.consideration m') 1 = true
  /\ Current.consideration_mix m' = None.
Proof.
  intros Hn m'.
  assert (Hsum : PrimFloat.eqb (Current.consideration m') 1 = true).
  { pose proof entries_in_range_sum_to_one as H.
    rewrite forallb_forall in H.
    apply (H n). apply in_seq. simpl. lia. }
  repeat split; auto.
  unfold Current.consideration_mix, JS.num_neq. now rewrite Hsum.
Qed.

Lemma stock_edit_sets_cash_example :
  Current.percent_cash
    (Current.ma_edit (Current.EditPercentStock (Current.percent_entry 3000))
       Current.initial_ma)
  = (1 - Current.percent_entry 3000 / 100)%float
  /\ Current.consideration_mix
       (Current.ma_edit (Current.EditPercentStock (Current.percent_entry 3000))
          Current.initial_ma) = None.
Proof.
  split.
  - reflexivity.
  - exact (proj2 (proj2 (proj2 (stock_edit_sets_cash 3000 Current.initial_ma
                                   ltac:(lia))))).
Defined.


(** ** Comparison selection *)

(** Filtering a selection keeps its symbols distinct. *)
Lemma filter_distinct_symbols (keep : Stock -> bool) (sel : list Stock) :
  NoDup (map symbol sel) -> NoDup (map symbol (filter keep sel)).
Proof.
  intros Hnd. induction sel as [|s sel IH]; simpl in *; auto.
  apply NoDup_cons_iff in Hnd as [Hfresh Hrest].
  destruct (keep s); simpl; auto.
  apply NoDup_cons; auto.
  rewrite in_map_iff. intros [y [Hy Hin]].
  apply filter_In in Hin as [Hin _].
  apply Hfresh, in_map_iff. eauto.
Qed.

Lemma NoDup_snoc {A : Type} (a : A) (l : list A) :
  NoDup l -> ~ In a l -> NoDup (l ++ [a]).
Proof.
  induction l as [|x l IH]; simpl; intros Hnd Hnotin.
  - constructor; auto; constructor.
  - inversion Hnd as [|y ys Hx Hl]; subst.
    constructor.
    + rewrite in_app_iff. simpl. intros [H|[H|[]]]; auto.
    + apply IH; auto.
Qed.

Lemma compare_click_invariant (e : Current.CompareClick) (l : list Stock) :
  NoDup (map symbol l) /\ (length l <= 5)%nat ->
  NoDup (map symbol (Current.compare_click e l))
  /\ (length (Current.compare_click e l) <= 5)%nat.
Proof.
  intros [Hnd Hlen]. destruct e as [stock|stock]; simpl.
  - destruct (find _ l) as [x|] eqn:Ef; simpl; auto.
    destruct (length l <? 5)%nat eqn:El; simpl; auto.
    apply Nat.ltb_lt in El. split.
    + rewrite map_app. simpl. apply NoDup_snoc; auto.
      intros Hin. apply in_map_iff in Hin as [y [Hy Hin]].
      pose proof (find_none _ _ Ef y Hin) as Hno. simpl in Hno.
      rewrite Hy, String.eqb_refl in Hno. discriminate.
    + rewrite length_app. simpl. lia.
  - split.
    + now apply filter_distinct_symbols.
    + pose proof (filter_length_le (fun s => negb (symbol s =? symbol stock)) l). lia.
Qed.

(** C10.  Whatever sequence of clicks on search results and on the
    crosses of selected stocks is applied to the initial (empty)
    selection, the selection holds no two stocks with the same symbol
    and at most five stocks. *)
Theorem compare_selection_bounded (es : list Current.CompareClick) :
  let l := Current.compareStocks (Current.compare_clicks es Current.initial_form) in
  NoDup (map symbol l) /\ (length l <= 5)%nat.
Proof.
  simpl.
  assert (G : forall f : Current.Form,
             NoDup (map symbol (Current.compareStocks f))
             /\ (length (Current.compareStocks f) <= 5)%nat ->
             NoDup (map symbol (Current.compareStocks (Current.compare_clicks es f)))
             /\ (length (Current.compareStocks (Current.compare_clicks es f)) <= 5)%nat).
  { induction es as [|e es IH]; intros f Hf; simpl; auto.
    apply IH. simpl. now apply compare_click_invariant. }
  apply G. simpl. split; [constructor | lia].
Qed.

(** * Further properties *)

(** ** One interval, polling the snapshot *)

Section Tracking.
(* the base URL of the page *)
Variable base : string.
Context {F : Type}.
Implicit Type c a : Client F.

Lemma same_deps_job (j1 j2 : option JobStatus) :
  same_deps (poll_deps j1) (poll_deps j2) = true ->
  option_map job_id j1 = option_map job_id j2.
Proof.
  unfold same_deps, poll_deps; simpl.
  intros H. apply andb_prop in H as [H _].
  destruct j1, j2; simpl in *; try discriminate; auto.
  apply String.eqb_eq in H. now rewrite H.
Qed.

Lemma polls_owned c :
  polls_snapshot c -> forall t, In t (timers c) -> poll_cleanup c = Some (fst t).
Proof.
  unfold polls_snapshot. intros H t Ht.
  destruct (jobStatus c) as [js|]; [destruct (terminal (status js))|];
    try (rewrite H in Ht; now destruct Ht).
  destruct H as [h [Hh Hk]]. rewrite Hh in Ht.
  destruct Ht as [<-|[]]. exact Hk.
Qed.

Lemma polls_coherent c : polls_snapshot c -> coherent c = true.
Proof.
  intros H. apply coherent_spec. split; [now apply polls_owned|].
  unfold polls_snapshot in H.
  destruct (jobStatus c) as [js|]; simpl; auto.
  destruct (terminal (status js)); simpl; auto.
Qed.

Lemma poll_effect_polls c : timers c = [] -> polls_snapshot (poll_effect c).
Proof.
  intros Hnil. unfold poll_effect, polls_snapshot.
  destruct (jobStatus c) as [js|] eqn:Ej.
  - destruct (terminal (status js)) eqn:Et; simpl; rewrite Ej, Et; auto.
    rewrite Hnil. simpl. eauto.
  - simpl. now rewrite Ej.
Qed.

(** A handler that only removes intervals, removes none while the new
    snapshot is pending or running, and leaves the cleanup alone keeps
    snapshot and intervals in agreement through the following render. *)
Lemma commit_polls_snapshot c a :
  polls_snapshot c ->
  poll_cleanup a = poll_cleanup c ->
  (forall t, In t (timers a) -> In t (timers c)) ->
  (polling_allowed (jobStatus a) = true -> timers a = timers c) ->
  polls_snapshot (commit c a).
Proof.
  intros Hc Hk Hsub Hkeep.
  assert (Hempty : timers c = [] -> timers a = []).
  { intros E. destruct (timers a) as [|t l]; auto.
    specialize (Hsub t (or_introl eq_refl)). rewrite E in Hsub. destruct Hsub. }
  unfold commit. destruct (same_deps _ _) eqn:Ed.
  - pose proof (same_deps_job _ _ Ed) as Hid.
    pose proof (same_deps_status _ _ Ed) as Hst.
    unfold polls_snapshot in *. simpl in Hkeep.
    destruct (jobStatus a) as [ja|], (jobStatus c) as [jc|];
      simpl in Hid, Hst; try discriminate; auto.
    injection Hid as Hid. injection Hst as Hst. rewrite Hid, Hst in Hc.
    destruct (terminal (status ja)) eqn:Et; auto.
    destruct Hc as [h [Hh Hc]]. exists h.
    rewrite Hkeep, Hk by (simpl; now rewrite Et). auto.
  - apply poll_effect_polls, run_cleanup_no_timers.
    intros t Ht. rewrite Hk. apply polls_owned; auto.
Qed.

Lemma poll_step_polls_snapshot c ev :
  polls_snapshot c -> polls_snapshot (poll_step base c ev).
Proof.
  intros Hc. destruct ev as [h|h r]; simpl; apply commit_polls_snapshot; auto.
  - apply interval_tick_shape.
  - intros t. now rewrite (proj1 (proj2 (interval_tick_shape base h c))).
  - intros _. apply interval_tick_shape.
  - apply interval_resume_shape.
  - apply interval_resume_shape.
  - unfold interval_resume. destruct r as [e|code d|st]; simpl; auto.
    destruct (terminal (status st)) eqn:Et; simpl; auto.
    rewrite Et. discriminate.
Qed.

(** The tick of the one live interval issues the status request for the
    snapshot's job, and nothing else. *)
Lemma tick_polls_snapshot c js :
  polls_snapshot c -> jobStatus c = Some js -> terminal (status js) = false ->
  exists h, timers c = [(h, job_id js)]
            /\ poll_step base c (Tick h)
               = fetch (get (base ++ "/api/job/" ++ job_id js)) c.
Proof.
  unfold polls_snapshot. intros H Hj Ht. rewrite Hj, Ht in H.
  destruct H as [h [Hh _]]. exists h. split; auto.
  simpl. unfold interval_tick, timer_job. rewrite Hh. simpl.
  rewrite Nat.eqb_refl. simpl. unfold commit. simpl.
  now rewrite same_deps_refl.
Qed.

End Tracking.

Lemma current_reachable_polls (NODE_ENV : string) (c : Client Current.Form) :
  Current.reachable NODE_ENV c -> polls_snapshot c.
Proof.
  induction 1 as [|c f _ IH|c _ IH|c k r _ IH|c s _ IH|c _ IH|c ev _ IH
                  |c r _ IH|c f r _ IH].
  - reflexivity.
  - exact IH.
  - pose proof (current_begin_shape NODE_ENV c) as [Hk Ht].
    apply commit_polls_snapshot; auto. now rewrite Ht.
  - apply commit_polls_snapshot; auto;
      unfold Current.handleGenerate_resume;
      destruct (Current.call_result k r); simpl; auto.
  - unfold Current.select_stock. now apply commit_polls_snapshot.
  - unfold Current.generate_another. now apply commit_polls_snapshot.
  - now apply poll_step_polls_snapshot.
  - destruct (current_download_shape r c) as (Hj & Hk & Ht).
    unfold polls_snapshot in *. now rewrite Hj, Hk, Ht.
  - destruct (current_export_shape NODE_ENV f r c) as (Hj & Hk & Ht).
    unfold polls_snapshot in *. now rewrite Hj, Hk, Ht.
Qed.

Lemma older_reachable_polls (c : Client Older.Form) :
  Older.reachable c -> polls_snapshot c.
Proof.
  induction 1 as [|c f _ IH|c _ IH|c k r _ IH|c s _ IH|c _ IH|c ev _ IH].
  - reflexivity.
  - exact IH.
  - pose proof (older_begin_shape c) as [Hk Ht].
    apply commit_polls_snapshot; auto. now rewrite Ht.
  - apply commit_polls_snapshot; auto;
      unfold Older.handleGenerate_resume;
      destruct (Older.call_result k r); simpl; auto.
  - unfold Older.select_stock. now apply commit_polls_snapshot.
  - unfold Older.generate_another. now apply commit_polls_snapshot.
  - now apply poll_step_polls_snapshot.
Qed.

(** X1.  In every state either page can reach, a snapshot that is not
    completed or failed is polled by exactly one interval, the one the
    last effect run set for the snapshot's job id, and the tick of that
    interval issues exactly the request GET /api/job/<id> under the
    page's API base (on the older page: the bare path); with no
    snapshot, or a completed or failed one, no interval is alive. *)
Theorem one_interval_polls_the_snapshot (NODE_ENV : string) :
  (forall c : Client Current.Form,
      Current.reachable NODE_ENV c ->
      polls_snapshot c
      /\ forall js, jobStatus c = Some js -> terminal (status js) = false ->
           exists h, timers c = [(h, job_id js)]
                     /\ fetched (poll_step (API_BASE NODE_ENV) c (Tick h))
                        = fetched c ++ [get (API_BASE NODE_ENV ++ "/api/job/" ++ job_id js)])
  /\ (forall c : Client Older.Form,
         Older.reachable c ->
         polls_snapshot c
         /\ forall js, jobStatus c = Some js -> terminal (status js) = false ->
              exists h, timers c = [(h, job_id js)]
                        /\ fetched (poll_step Older.API_BASE c (Tick h))
                           = fetched c ++ [get ("/api/job/" ++ job_id js)]).
Proof.
  split; intros c Hc.
  - pose proof (current_reachable_polls NODE_ENV c Hc) as Hp. split; auto.
    intros js Hj Ht.
    destruct (tick_polls_snapshot (API_BASE NODE_ENV) c js Hp Hj Ht) as [h [Hh E]].
    exists h. split; auto. now rewrite E.
  - pose proof (older_reachable_polls c Hc) as Hp. split; auto.
    intros js Hj Ht.
    destruct (tick_polls_snapshot Older.API_BASE c js Hp Hj Ht) as [h [Hh E]].
    exists h. split; auto. now rewrite E.
Qed.

Lemma sample_pending_reachable : Current.reachable "production" Sample.tcs_pending.
Proof.
  apply current_handleGenerate_reachable.
  apply Current.reach_select, Current.reach_mount.
Qed.

Lemma one_interval_polls_the_snapshot_example :
  polls_snapshot Sample.tcs_pending
  /\ polls_snapshot (mount Older.initial_form).
Proof.
  split.
  - exact (proj1 (proj1 (one_interval_polls_the_snapshot "production")
                    Sample.tcs_pending sample_pending_reachable)).
  - exact (proj1 (proj2 (one_interval_polls_the_snapshot "production")
                    (mount Older.initial_form) (Older.reach_mount))).
Defined.

(** ** Replies that come late, and the loading flag *)

Section LateReplies.
(* the base URL of the page *)
Variable base : string.
Context {F : Type}.
Implicit Type c : Client F.

Lemma run_cleanup_keeps_empty c : timers c = [] -> timers (run_cleanup c) = [].
Proof.
  intros E. unfold run_cleanup. destruct (poll_cleanup c); simpl; auto.
  now rewrite E.
Qed.

Lemma run_cleanup_next_handle c : next_handle (run_cleanup c) = next_handle c.
Proof. unfold run_cleanup. now destruct (poll_cleanup c). Qed.

Lemma run_cleanup_isLoading c : isLoading (run_cleanup c) = isLoading c.
Proof. unfold run_cleanup. now destruct (poll_cleanup c). Qed.

(** X2.  A successful reply with a status other than completed or failed
    that reaches the client while it holds no snapshot, or a completed
    or failed one (the job was discarded or had ended), is installed as
    the snapshot all the same, and a new interval starts polling its
    job. *)
Theorem late_reply_restarts_polling c (h : nat) (st : JobStatus) :
  coherent c = true ->
  polling_allowed (jobStatus c) = false ->
  terminal (status st) = false ->
  let c' := poll_step base c (Resume h (Ok st)) in
  jobStatus c' = Some st
  /\ timers c' = [(next_handle c, job_id st)]
  /\ fetched (poll_step base c' (Tick (next_handle c)))
     = fetched c ++ [get (base ++ "/api/job/" ++ job_id st)].
Proof.
  intros Hc Hno Ht c'.
  assert (E : c' = poll_effect (run_cleanup (setJobStatus (Some st) c))).
  { subst c'. simpl. unfold interval_resume. simpl. rewrite Ht.
    unfold commit. destruct (same_deps _ _) eqn:Ed; auto.
    apply same_deps_allowed in Ed. simpl in Ed. rewrite Ht, Hno in Ed.
    discriminate. }
  assert (Hnil : timers (run_cleanup (setJobStatus (Some st) c)) = []).
  { apply run_cleanup_no_timers. apply coherent_spec in Hc. apply Hc. }
  assert (Htm : timers c' = [(next_handle c, job_id st)]).
  { rewrite E. unfold poll_effect. rewrite run_cleanup_jobStatus. simpl.
    rewrite Ht. simpl. now rewrite Hnil, run_cleanup_next_handle. }
  split; [|split; auto].
  - subst c'. exact (poll_step_jobStatus base c (Resume h (Ok st))).
  - simpl. unfold interval_tick, timer_job. rewrite Htm. simpl.
    rewrite Nat.eqb_refl. simpl. rewrite commit_fetched. simpl.
    rewrite E. unfold poll_effect. rewrite run_cleanup_jobStatus. simpl.
    rewrite Ht. simpl. unfold run_cleanup. simpl.
    now destruct (poll_cleanup c).
Qed.

(** X3.  A successful poll reply turns the loading flag off exactly when
    its status is completed or failed; any other status leaves the flag
    as it was. *)
Theorem loading_flag_after_reply c (h : nat) (st : JobStatus) :
  isLoading (poll_step base c (Resume h (Ok st)))
  = if terminal (status st) then false else isLoading c.
Proof.
  simpl. unfold interval_resume. simpl.
  destruct (terminal (status st)) eqn:Et; unfold commit;
    destruct (same_deps _ _); auto;
    unfold poll_effect; rewrite run_cleanup_jobStatus; simpl; rewrite Et;
    simpl; rewrite ?run_cleanup_isLoading; reflexivity.
Qed.

End LateReplies.

(** "Generate Another Model" on the completed sample job, and then the
    reply of a poll that was still under way. *)
Lemma late_reply_restarts_polling_example :
  jobStatus (Current.generate_another (Sample.tcs_done None)) = None
  /\ timers (poll_step (API_BASE "production") (Current.generate_another (Sample.tcs_done None))
               (Resume 0 (Ok (Sample.running "j1" 80))))
     = [(1, "j1")].
Proof.
  split; [reflexivity|].
  exact (proj1 (proj2 (late_reply_restarts_polling (API_BASE "production")
                         (Current.generate_another (Sample.tcs_done None)) 0
                         (Sample.running "j1" 80) eq_refl eq_refl eq_refl))).
Defined.

(** ** Submissions on every tab *)

Section Submissions.
Variable NODE_ENV : string.

Lemma after_begin {F : Type} (c : Client F) (q : Request) :
  coherent c = true ->
  let c2 := commit c (fetch q (setJobStatus None (setError None (setIsLoading true c)))) in
  jobStatus c2 = None /\ timers c2 = [] /\ next_handle c2 = next_handle c
  /\ error c2 = None /\ fetched c2 = fetched c ++ [q]
  /\ (jobStatus c = None -> isLoading c2 = true).
Proof.
  intros Hc c2.
  assert (Hj : jobStatus c2 = None) by (unfold c2; now rewrite commit_jobStatus).
  assert (Ht : timers c2 = [])
    by (unfold c2; apply commit_no_job_no_timers; auto).
  repeat split; auto.
  - unfold c2, commit. destruct (same_deps _ _); auto.
    unfold poll_effect. rewrite run_cleanup_jobStatus. simpl.
    now rewrite run_cleanup_next_handle.
  - unfold c2. now rewrite commit_error.
  - unfold c2. now rewrite commit_fetched.
  - intros Hn. unfold c2, commit. now rewrite Hn.
Qed.

Lemma install_pending {F : Type} (c2 : Client F) (jid : string) :
  jobStatus c2 = None -> timers c2 = [] ->
  let c' := commit c2 (setJobStatus (Some (pending_job jid)) c2) in
  jobStatus c' = Some (pending_job jid)
  /\ timers c' = [(next_handle c2, jid)]
  /\ error c' = error c2 /\ isLoading c' = isLoading c2
  /\ fetched c' = fetched c2.
Proof.
  intros Hj Ht c'.
  assert (E : c' = poll_effect (run_cleanup (setJobStatus (Some (pending_job jid)) c2))).
  { unfold c', commit. now rewrite Hj. }
  rewrite E. unfold poll_effect. rewrite run_cleanup_jobStatus. simpl.
  rewrite run_cleanup_keeps_empty by exact Ht.
  rewrite run_cleanup_next_handle, run_cleanup_isLoading. simpl.
  repeat split; unfold run_cleanup; simpl; now destruct (poll_cleanup c2).
Qed.

(** X4.  On every tab of either page: when "Generate Model" issues its
    request and the reply carries a job id, that one request has been
    sent, the error display is cleared, the snapshot is the pending job
    at progress 0, and exactly one interval has started, polling that
    job; the loading flag is on when the page held no snapshot before
    (the only state in which the button is rendered). *)
Theorem submission_starts_polling (jid : string) :
  (forall (c : Client Current.Form) (k : Current.Call),
      coherent c = true ->
      fst (Current.handleGenerate_begin NODE_ENV c) = Some k ->
      let c' := Current.handleGenerate NODE_ENV (Ok jid) c in
      (exists q, fetched c' = fetched c ++ [q])
      /\ jobStatus c' = Some (pending_job jid)
      /\ error c' = None
      /\ timers c' = [(next_handle c, jid)]
      /\ (jobStatus c = None -> isLoading c' = true))
  /\ (forall (c : Client Older.Form) (k : Older.Call),
         coherent c = true ->
         fst (Older.handleGenerate_begin c) = Some k ->
         let c' := Older.handleGenerate (Ok jid) c in
         (exists q, fetched c' = fetched c ++ [q])
         /\ jobStatus c' = Some (pending_job jid)
         /\ error c' = None
         /\ timers c' = [(next_handle c, jid)]
         /\ (jobStatus c = None -> isLoading c' = true)).
Proof.
  split; intros c k Hc Hk c'.
  - destruct (current_begin_call NODE_ENV c k Hk) as [q Hq].
    destruct (after_begin c q Hc) as (Hj & Ht & Hn & He & Hf & Hl).
    set (c2 := commit c (fetch q (setJobStatus None (setError None (setIsLoading true c))))) in *.
    destruct (install_pending c2 jid Hj Ht) as (Hj' & Ht' & He' & Hl' & Hf').
    assert (E : c' = commit c2 (setJobStatus (Some (pending_job jid)) c2)).
    { subst c'. unfold Current.handleGenerate.
      destruct (Current.handleGenerate_begin NODE_ENV c) as [k' c1].
      simpl in Hk, Hq. subst k' c1. fold c2.
      unfold Current.handleGenerate_resume.
      now destruct k. }
    rewrite E. repeat split.
    + exists q. now rewrite Hf', Hf.
    + exact Hj'.
    + now rewrite He'.
    + now rewrite Ht', Hn.
    + intros H0. rewrite Hl'. auto.
  - destruct (older_begin_call c k Hk) as [q Hq].
    destruct (after_begin c q Hc) as (Hj & Ht & Hn & He & Hf & Hl).
    set (c2 := commit c (fetch q (setJobStatus None (setError None (setIsLoading true c))))) in *.
    destruct (install_pending c2 jid Hj Ht) as (Hj' & Ht' & He' & Hl' & Hf').
    assert (E : c' = commit c2 (setJobStatus (Some (pending_job jid)) c2)).
    { subst c'. unfold Older.handleGenerate.
      destruct (Older.handleGenerate_begin c) as [k' c1].
      simpl in Hk, Hq. subst k' c1. fold c2.
      unfold Older.handleGenerate_resume.
      now destruct k. }
    rewrite E. repeat split.
    + exists q. now rewrite Hf', Hf.
    + exact Hj'.
    + now rewrite He'.
    + now rewrite Ht', Hn.
    + intros H0. rewrite Hl'. auto.
Qed.

(** X5.  When the fetch of a submission is rejected (a transport
    failure), the current page displays the message of the error thrown
    (for a thrown value that is no Error, the fallback text) and the
    older page its fixed text; the one request has been sent, the
    snapshot is empty, the loading flag is off and no interval is
    alive. *)
Theorem rejected_fetch_on_submission (e : Thrown) :
  (forall (c : Client Current.Form) (k : Current.Call),
      coherent c = true ->
      fst (Current.handleGenerate_begin NODE_ENV c) = Some k ->
      let c' := Current.handleGenerate NODE_ENV (Rejected e) c in
      error c' = Some (match e with
                       | Error msg => msg
                       | NotAnError => "Failed to start model generation. Please try again."
                       end)
      /\ (exists q, fetched c' = fetched c ++ [q])
      /\ jobStatus c' = None /\ isLoading c' = false /\ timers c' = [])
  /\ (forall (c : Client Older.Form) (k : Older.Call),
         coherent c = true ->
         fst (Older.handleGenerate_begin c) = Some k ->
         let c' := Older.handleGenerate (Rejected e) c in
         error c' = Some "Failed to start model generation. Please try again."
         /\ (exists q, fetched c' = fetched c ++ [q])
         /\ jobStatus c' = None /\ isLoading c' = false /\ timers c' = []).
Proof.
  split; intros c k Hc Hk c'.
  - destruct (current_begin_call NODE_ENV c k Hk) as [q Hq].
    destruct (after_begin c q Hc) as (Hj & Ht & Hn & He & Hf & Hl).
    set (c2 := commit c (fetch q (setJobStatus None (setError None (setIsLoading true c))))) in *.
    assert (E : exists m, c' = setIsLoading false (setError (Some m) c2)
                          /\ m = match e with
                                 | Error msg => msg
                                 | NotAnError => "Failed to start model generation. Please try again."
                                 end).
    { subst c'. unfold Current.handleGenerate.
      destruct (Current.handleGenerate_begin NODE_ENV c) as [k' c1].
      simpl in Hk, Hq. subst k' c1. fold c2.
      unfold Current.handleGenerate_resume.
      assert (Hres : Current.call_result k (Rejected e) = Threw e) by now destruct k.
      rewrite Hres. eexists. split; [|reflexivity].
      apply commit_no_job; auto. }
    destruct E as [m [E ->]]. rewrite E. simpl. repeat split; eauto.
  - destruct (older_begin_call c k Hk) as [q Hq].
    destruct (after_begin c q Hc) as (Hj & Ht & Hn & He & Hf & Hl).
    set (c2 := commit c (fetch q (setJobStatus None (setError None (setIsLoading true c))))) in *.
    assert (E : c' = setIsLoading false
                       (setError (Some "Failed to start model generation. Please try again.") c2)).
    { subst c'. unfold Older.handleGenerate.
      destruct (Older.handleGenerate_begin c) as [k' c1].
      simpl in Hk, Hq. subst k' c1. fold c2.
      unfold Older.handleGenerate_resume.
      assert (Hres : Older.call_result k (Rejected e) = Threw e) by now destruct k.
      rewrite Hres. apply commit_no_job; auto. }
    rewrite E. simpl. repeat split; eauto.
Qed.

End Submissions.

(** The upload of the sample file on the current page, and a raw
    submission on the older page, each answered with job "j7". *)
Lemma submission_starts_polling_example :
  timers (Current.handleGenerate "production" (Ok "j7") Sample2.excel_ready)
  = [(0, "j7")]
  /\ jobStatus (Older.handleGenerate (Ok "j7") Sample2.raw_padded)
     = Some (pending_job "j7").
Proof.
  split.
  - exact (proj1 (proj2 (proj2 (proj2
             (proj1 (submission_starts_polling "production" "j7")
                Sample2.excel_ready Current.UploadExcelFile eq_refl eq_refl))))).
  - exact (proj1 (proj2
             (proj2 (submission_starts_polling "production" "j7")
                Sample2.raw_padded Older.GenerateRawModel eq_refl eq_refl))).
Defined.

Lemma rejected_fetch_on_submission_example :
  error (Current.handleGenerate "production" (Rejected (Error "Failed to fetch"))
           Sample.tcs_selected)
  = Some "Failed to fetch"
  /\ error (Older.handleGenerate (Rejected (Error "Failed to fetch"))
              Sample2.raw_padded)
     = Some "Failed to start model generation. Please try again.".
Proof.
  split.
  - exact (proj1 (proj1 (rejected_fetch_on_submission "production"
                           (Error "Failed to fetch"))
                    Sample.tcs_selected Current.GenerateModel eq_refl eq_refl)).
  - exact (proj1 (proj2 (rejected_fetch_on_submission "production"
                           (Error "Failed to fetch"))
                    Sample2.raw_padded Older.GenerateRawModel eq_refl eq_refl)).
Defined.

(** ** The "Generate Model" button *)

Section GenerateButton.
Variable NODE_ENV : string.

Lemma current_resume_fetched (k : Current.Call) (r : Reply string)
    (c : Client Current.Form) :
  fetched (Current.handleGenerate_resume k r c) = fetched c.
Proof.
  unfold Current.handleGenerate_resume.
  now destruct (Current.call_result k r).
Qed.

Lemma older_resume_fetched (k : Older.Call) (r : Reply string)
    (c : Client Older.Form) :
  fetched (Older.handleGenerate_resume k r c) = fetched c.
Proof.
  unfold Older.handleGenerate_resume.
  now destruct (Older.call_result k r).
Qed.

Lemma current_handleGenerate_fetched (r : Reply string) (c : Client Current.Form) :
  fetched (Current.handleGenerate NODE_ENV r c)
  = fetched (snd (Current.handleGenerate_begin NODE_ENV c)).
Proof.
  unfold Current.handleGenerate.
  destruct (Current.handleGenerate_begin NODE_ENV c) as [[k|] c1]; simpl;
    rewrite ?commit_fetched, ?current_resume_fetched, ?commit_fetched; reflexivity.
Qed.

Lemma older_handleGenerate_fetched (r : Reply string) (c : Client Older.Form) :
  fetched (Older.handleGenerate r c)
  = fetched (snd (Older.handleGenerate_begin c)).
Proof.
  unfold Older.handleGenerate.
  destruct (Older.handleGenerate_begin c) as [[k|] c1]; simpl;
    rewrite ?commit_fetched, ?older_resume_fetched, ?commit_fetched; reflexivity.
Qed.

(** X6.  Whatever the state and the reply, a click on "Generate Model"
    sends nothing or exactly one request, and that request is a POST to
    one of the generation endpoints: on the current page one of four
    paths under its API base, on the older page one of two bare paths
    (its API base is the empty string). *)
Theorem generate_sends_at_most_one_post (r : Reply string) :
  (forall c : Client Current.Form,
      let c' := Current.handleGenerate NODE_ENV r c in
      fetched c' = fetched c
      \/ exists q path,
           fetched c' = fetched c ++ [q] /\ method q = POST
           /\ In path CurrentUI.generate_paths
           /\ url q = (API_BASE NODE_ENV ++ path)%string)
  /\ (forall c : Client Older.Form,
         let c' := Older.handleGenerate r c in
         fetched c' = fetched c
         \/ exists q path,
              fetched c' = fetched c ++ [q] /\ method q = POST
              /\ In path ["/api/model/generate"; "/api/model/generate-raw"]
              /\ url q = path).
Proof.
  split; intros c c'; subst c'.
  - rewrite current_handleGenerate_fetched.
    unfold Current.handleGenerate_begin.
    repeat match goal with
           | |- context [if ?b then _ else _] => destruct b
           | |- context [match ?x with _ => _ end] => destruct x
           end; simpl; auto;
      right; do 2 eexists;
      (split; [reflexivity|split; [reflexivity|split; [|reflexivity]]]);
      simpl; tauto.
  - rewrite older_handleGenerate_fetched.
    unfold Older.handleGenerate_begin.
    repeat match goal with
           | |- context [if ?b then _ else _] => destruct b
           | |- context [match ?x with _ => _ end] => destruct x
           end; simpl; auto;
      right; do 2 eexists;
      (split; [reflexivity|split; [reflexivity|split; [|reflexivity]]]);
      simpl; tauto.
Qed.

(** X7.  The button's [disabled] attribute repeats the guards of
    [handleGenerate]: with a required field missing the button is
    disabled, and whenever it is enabled a click does send a request, on
    every tab of the older page and on every tab of the current page
    but "compare". *)
Theorem enabled_button_submits :
  (forall c : Client Current.Form,
      (Current.missing_required (form c) = true ->
       CurrentUI.generate_disabled c = true)
      /\ (CurrentUI.generate_disabled c = false ->
          Current.activeTab (form c) <> Current.compare ->
          exists k, fst (Current.handleGenerate_begin NODE_ENV c) = Some k))
  /\ (forall c : Client Older.Form,
         (Older.missing_required (form c) = true ->
          OlderUI.generate_disabled c = true)
         /\ (OlderUI.generate_disabled c = false ->
             exists k, fst (Older.handleGenerate_begin c) = Some k)).
Proof.
  split; intros c; split.
  - unfold Current.missing_required, CurrentUI.generate_disabled.
    destruct (isLoading c); simpl; auto.
    destruct (Current.activeTab (form c)); simpl; try discriminate;
      intros ->; simpl; auto using orb_true_r.
  - unfold CurrentUI.generate_disabled, Current.handleGenerate_begin.
    destruct (isLoading c); simpl; [discriminate|].
    destruct (Current.activeTab (form c)); simpl; intros Hd Htab;
      try (now destruct Htab);
      destruct (Current.selectedStock (form c)),
               (Current.excelFile (form c)),
               (Current.acquirerStock (form c)),
               (Current.targetStock (form c));
      simpl in *; try discriminate; eauto.
  - unfold Older.missing_required, OlderUI.generate_disabled.
    destruct (isLoading c); simpl; auto.
    destruct (Older.activeTab (form c)); simpl.
    + intros ->. reflexivity.
    + intros H. apply String.eqb_eq in H. rewrite H. reflexivity.
  - unfold OlderUI.generate_disabled, Older.handleGenerate_begin.
    destruct (isLoading c); simpl; [discriminate|].
    destruct (Older.activeTab (form c)); simpl; intros Hd.
    + destruct (Older.selectedStock (form c)); simpl in *; try discriminate; eauto.
    + rewrite orb_false_r in Hd || idtac.
      destruct (JS.trim _ =? ""); simpl in *; try discriminate.
      destruct (Older.selectedStock (form c)); eauto.
Qed.

(** X8.  On the "compare" tab the button is enabled, but a click sends
    nothing: it only turns the loading flag on.  With no snapshot held,
    no effect run follows that would turn it off again, so the button
    is disabled from then on; picking a stock or "Generate Another
    Model" does not bring it back. *)
Theorem generate_on_compare_tab (r : Reply string) (c : Client Current.Form) (s : Stock) :
  Current.activeTab (form c) = Current.compare ->
  jobStatus c = None ->
  let c' := Current.handleGenerate NODE_ENV r c in
  fetched c' = fetched c
  /\ jobStatus c' = None
  /\ timers c' = timers c
  /\ isLoading c' = true
  /\ CurrentUI.generate_disabled c' = true
  /\ isLoading (Current.select_stock s c') = true
  /\ isLoading (Current.generate_another c') = true.
Proof.
  intros Htab Hj c'.
  assert (E : c' = setJobStatus None (setError None (setIsLoading true c))).
  { subst c'. unfold Current.handleGenerate, Current.handleGenerate_begin.
    rewrite Htab. simpl. apply commit_no_job; auto. }
  rewrite E. unfold Current.select_stock, Current.generate_another, commit.
  simpl. repeat split.
Qed.

End GenerateButton.

Lemma generate_on_compare_tab_example :
  CurrentUI.generate_disabled Sample2.on_compare = false
  /\ isLoading (Current.handleGenerate "production" (Ok "j1") Sample2.on_compare) = true
  /\ fetched (Current.handleGenerate "production" (Ok "j1") Sample2.on_compare) = [].
Proof.
  split; [reflexivity|].
  pose proof (generate_on_compare_tab "production" (Ok "j1") Sample2.on_compare
                Sample.tcs eq_refl eq_refl) as H.
  split.
  - exact (proj1 (proj2 (proj2 (proj2 H)))).
  - exact (proj1 H).
Defined.

Lemma enabled_button_submits_example :
  CurrentUI.generate_disabled Sample.tcs_selected = false
  /\ exists k, fst (Current.handleGenerate_begin "production" Sample.tcs_selected) = Some k.
Proof.
  split; [reflexivity|].
  exact (proj2 (proj1 (enabled_button_submits "production") Sample.tcs_selected)
           eq_refl ltac:(discriminate)).
Defined.

(** ** Comparison of companies *)

Lemma compare_clicks_invariant (es : list Current.CompareClick) (f : Current.Form) :
  NoDup (map symbol (Current.compareStocks f))
  /\ (length (Current.compareStocks f) <= 5)%nat ->
  NoDup (map symbol (Current.compareStocks (Current.compare_clicks es f)))
  /\ (length (Current.compareStocks (Current.compare_clicks es f)) <= 5)%nat.
Proof.
  revert f. induction es as [|e es IH]; intros f Hf; simpl; auto.
  apply IH. simpl. now apply compare_click_invariant.
Qed.

Section CompareFacts.
Variable NODE_ENV : string.

(** With fewer than two companies selected "Compare Companies"
    sends nothing: it sets the error display to its request for two
    companies and changes nothing else. *)
Theorem compare_needs_two_companies (r : Reply Json)
    (c : Client Current.Form) (v : CurrentUI.CompareState) :
  (length (Current.compareStocks (form c)) < 2)%nat ->
  CurrentUI.handleCompare NODE_ENV r (c, v)
  = (setError (Some "Select at least 2 companies to compare") c, v).
Proof.
  intros H. unfold CurrentUI.handleCompare, CurrentUI.handleCompare_begin.
  apply Nat.ltb_lt in H. now rewrite H.
Qed.

(** X9.  Whatever clicks built the selection from the empty one, once
    it holds at least two companies "Compare Companies" sends exactly
    one request, the POST to /api/compare whose [symbols] are those of
    the selection in order: between two and five symbols, no two of
    them equal, with exchange "NSE". *)
Theorem compare_request_lists_the_selection (r : Reply Json)
    (es : list Current.CompareClick) (c : Client Current.Form)
    (v : CurrentUI.CompareState) :
  Current.compareStocks (form c)
  = Current.compareStocks (Current.compare_clicks es Current.initial_form) ->
  (2 <= length (Current.compareStocks (form c)))%nat ->
  let syms := map symbol (Current.compareStocks (form c)) in
  fetched (fst (CurrentUI.handleCompare NODE_ENV r (c, v)))
  = fetched c ++
    [ {| method := POST;
         url := API_BASE NODE_ENV ++ "/api/compare";
         headers := [("Content-Type", "application/json")];
         body := JsonBody (JObj [("symbols", JArr (map JStr syms));
                                 ("exchange", JStr "NSE")]) |} ]
  /\ NoDup syms
  /\ (2 <= length syms <= 5)%nat.
Proof.
  intros Hf Hlen syms.
  assert (Hinv : NoDup syms /\ (length (Current.compareStocks (form c)) <= 5)%nat).
  { subst syms. rewrite Hf. apply compare_clicks_invariant.
    simpl. split; [constructor|lia]. }
  split; [|split; [apply Hinv|subst syms; rewrite length_map; lia]].
  unfold CurrentUI.handleCompare, CurrentUI.handleCompare_begin.
  assert (Hl : (length (Current.compareStocks (form c)) <? 2)%nat = false)
    by (apply Nat.ltb_ge; lia).
  rewrite Hl. unfold CurrentUI.handleCompare_resume.
  subst syms. rewrite map_map.
  destruct (json_result "Comparison failed" r); reflexivity.
Qed.

(** X10.  After the reply of a comparison the comparing flag is off,
    whatever the reply.  A successful reply becomes the comparison data
    and leaves the error display cleared; a response that is not ok
    displays "Comparison failed", a rejected fetch the message of its
    error, and both keep the previous comparison data.  The job
    snapshot, the loading flag and the intervals are never touched. *)
Theorem compare_reply_is_handled (r : Reply Json)
    (c : Client Current.Form) (v : CurrentUI.CompareState) :
  (2 <= length (Current.compareStocks (form c)))%nat ->
  let c' := fst (CurrentUI.handleCompare NODE_ENV r (c, v)) in
  let v' := snd (CurrentUI.handleCompare NODE_ENV r (c, v)) in
  CurrentUI.isComparing v' = false
  /\ jobStatus c' = jobStatus c /\ isLoading c' = isLoading c
  /\ timers c' = timers c
  /\ match r with
     | Ok data => CurrentUI.comparisonData v' = Some data /\ error c' = None
     | NotOk _ _ =>
         CurrentUI.comparisonData v' = CurrentUI.comparisonData v
         /\ error c' = Some "Comparison failed"
     | Rejected (Error msg) =>
         CurrentUI.comparisonData v' = CurrentUI.comparisonData v
         /\ error c' = Some msg
     | Rejected NotAnError =>
         CurrentUI.comparisonData v' = CurrentUI.comparisonData v
         /\ error c' = Some "Comparison failed"
     end.
Proof.
  intros Hlen c' v'. subst c' v'.
  unfold CurrentUI.handleCompare, CurrentUI.handleCompare_begin.
  assert (Hl : (length (Current.compareStocks (form c)) <? 2)%nat = false)
    by (apply Nat.ltb_ge; lia).
  rewrite Hl. unfold CurrentUI.handleCompare_resume.
  destruct r as [[msg|]|code d|data]; simpl; repeat split; auto.
Qed.

End CompareFacts.

Lemma compare_needs_two_companies_example :
  error (fst (CurrentUI.handleCompare "production" (Ok (JObj []))
                (Sample2.on_compare,
                 {| CurrentUI.isComparing := false;
                    CurrentUI.comparisonData := None |})))
  = Some "Select at least 2 companies to compare".
Proof.
  rewrite (compare_needs_two_companies "production" (Ok (JObj []))
             Sample2.on_compare
             {| CurrentUI.isComparing := false; CurrentUI.comparisonData := None |}
             ltac:(simpl; lia)).
  reflexivity.
Defined.

Lemma compare_request_lists_the_selection_example :
  NoDup (map symbol (Current.compareStocks (form (fst Sample2.two_selected))))
  /\ length (fetched (fst (CurrentUI.handleCompare "production" (Ok (JObj []))
                             Sample2.two_selected))) = 1%nat.
Proof.
  pose proof (compare_request_lists_the_selection "production" (Ok (JObj []))
                [Current.AddStock Sample.tcs; Current.AddStock Sample.infy]
                (fst Sample2.two_selected) (snd Sample2.two_selected)
                eq_refl ltac:(simpl; lia)) as H.
  split.
  - exact (proj1 (proj2 H)).
  - reflexivity.
Defined.

Lemma compare_reply_is_handled_example :
  CurrentUI.isComparing
    (snd (CurrentUI.handleCompare "production" (NotOk 500 None) Sample2.two_selected))
  = false.
Proof.
  exact (proj1 (compare_reply_is_handled "production" (NotOk 500 None)
                  (fst Sample2.two_selected) (snd Sample2.two_selected)
                  ltac:(simpl; lia))).
Defined.

(** ** Sequences of M&A edits *)

Lemma ma_edit_consideration (e : Current.MAEdit) (m : Current.MAAssumptions) :
  CurrentUI.entry_in_range e ->
  PrimFloat.eqb (Current.consideration m) 1 = true ->
  PrimFloat.eqb (Current.consideration (Current.ma_edit e m)) 1 = true.
Proof.
  intros He Hm. destruct e as [v|v|v|v]; simpl in *; auto.
  destruct He as [n [Hn ->]].
  pose proof entries_in_range_sum_to_one as H.
  rewrite forallb_forall in H.
  apply (H n). apply in_seq. simpl. lia.
Qed.

(** X11.  Starting from the initial assumptions (50 % stock, 50 % cash),
    after any sequence of edits of the M&A inputs in which every entry
    into "Stock (%)" lies between 0.00 and 100.00, the two shares add up
    to exactly 1 and the consideration warning is off: the other inputs
    never write the shares. *)
Theorem ma_edits_keep_consideration (es : list Current.MAEdit) :
  Forall CurrentUI.entry_in_range es ->
  let m := CurrentUI.ma_edits es Current.initial_ma in
  PrimFloat.eqb (Current.consideration m) 1 = true
  /\ Current.consideration_mix m = None.
Proof.
  intros Hes.
  assert (G : forall m0, PrimFloat.eqb (Current.consideration m0) 1 = true ->
                         PrimFloat.eqb (Current.consideration (CurrentUI.ma_edits es m0)) 1
                         = true).
  { induction Hes as [|e es He _ IH]; intros m0 H0; simpl; auto.
    apply IH. now apply ma_edit_consideration. }
  specialize (G Current.initial_ma initial_consideration).
  simpl. split; auto.
  unfold Current.consideration_mix, JS.num_neq. now rewrite G.
Qed.

Lemma ma_edits_keep_consideration_example :
  Current.consideration_mix
    (CurrentUI.ma_edits
       [Current.EditOfferPremium 30; Current.EditPercentStock (Current.percent_entry 3000);
        Current.EditSynergiesCost 50]
       Current.initial_ma) = None.
Proof.
  refine (proj2 (ma_edits_keep_consideration
                   [Current.EditOfferPremium 30;
                    Current.EditPercentStock (Current.percent_entry 3000);
                    Current.EditSynergiesCost 50] _)).
  repeat constructor. exists 3000%nat. split; [lia|reflexivity].
Defined.

(** ** Download and export leave the job alone *)

(** X12.  Neither the download nor an export, whatever the reply, changes
    the job snapshot, the error display, the loading flag, the form or
    the intervals; and each sends at most one request, a GET. *)
Theorem artifacts_leave_job_alone (NODE_ENV : string) (c : Client Current.Form)
    (r : BlobReply) (f : ExportFormat) :
  let d := Current.download_click r c in
  let x := Current.export_click NODE_ENV f r c in
  (jobStatus d = jobStatus c /\ error d = error c /\ isLoading d = isLoading c
   /\ form d = form c /\ timers d = timers c
   /\ (fetched d = fetched c
       \/ exists q, fetched d = fetched c ++ [q] /\ method q = GET))
  /\ (jobStatus x = jobStatus c /\ error x = error c /\ isLoading x = isLoading c
      /\ form x = form c /\ timers x = timers c
      /\ (fetched x = fetched c
          \/ exists q, fetched x = fetched c ++ [q] /\ method q = GET)).
Proof.
  simpl. split.
  - unfold Current.download_click.
    destruct (jobStatus c) as [js|] eqn:Ej; [|rewrite ?Ej; tauto].
    destruct (download_url js); [|rewrite ?Ej; tauto].
    destruct (Current.download_shown js); [|rewrite ?Ej; tauto].
    destruct r; simpl; rewrite ?Ej; repeat split; auto; right; eauto.
  - unfold Current.export_click.
    destruct (jobStatus c) as [js|] eqn:Ej; [|rewrite ?Ej; tauto].
    destruct (Current.download_shown js); [|rewrite ?Ej; tauto].
    destruct r as [e|ok code blob]; simpl; [|destruct ok; simpl];
      rewrite ?Ej; repeat split; auto; right; eauto.
Qed.

(** ** File names *)

Section StringFacts.

Lemma string_length_app (a b : string) :
  String.length (a ++ b) = (String.length a + String.length b)%nat.
Proof. induction a as [|x a IH]; simpl; auto. Qed.

Lemma substring_take (a b : string) : substring 0 (String.length a) (a ++ b) = a.
Proof.
  induction a as [|x a IH]; simpl.
  - now destruct b.
  - now rewrite IH.
Qed.

Lemma substring_skip (a b : string) (m : nat) :
  substring (String.length a) m (a ++ b) = substring 0 m b.
Proof. induction a as [|x a IH]; simpl; auto. Qed.

Lemma substring_whole (s : string) : substring 0 (String.length s) s = s.
Proof. induction s as [|x s IH]; simpl; auto. now rewrite IH. Qed.

Lemma substring_split (s : string) (k : nat) :
  (k <= String.length s)%nat ->
  s = (substring 0 k s ++ substring k (String.length s - k) s)%string.
Proof.
  revert k. induction s as [|x s IH]; intros k Hk; simpl in *.
  - assert (k = 0)%nat by lia. subst. reflexivity.
  - destruct k as [|k]; simpl.
    + now rewrite substring_whole.
    + f_equal. apply IH. lia.
Qed.

Lemma substring_length (s : string) (k m : nat) :
  (k + m <= String.length s)%nat -> String.length (substring k m s) = m.
Proof.
  revert k m. induction s as [|x s IH]; intros k m H; simpl in *.
  - assert (k = 0 /\ m = 0)%nat as [-> ->] by lia. reflexivity.
  - destruct k as [|k]; [destruct m as [|m]|]; simpl; auto.
    + f_equal. apply (IH 0%nat). lia.
    + apply IH. lia.
Qed.

Lemma string_app_inj_length (a b c d : string) :
  String.length b = String.length d ->
  (a ++ b)%string = (c ++ d)%string -> a = c /\ b = d.
Proof.
  intros Hl H.
  assert (Hac : String.length a = String.length c).
  { apply (f_equal String.length) in H. rewrite !string_length_app in H. lia. }
  clear Hl. revert c H Hac.
  induction a as [|x a IH]; intros [|y c] H Hac; simpl in *; try discriminate; auto.
  injection H as -> H. destruct (IH c H) as [-> ->]; auto.
Qed.

(** [ends_with] is what its name says. *)
Lemma ends_with_iff (suffix s : string) :
  JS.ends_with suffix s = true <-> exists p, s = (p ++ suffix)%string.
Proof.
  unfold JS.ends_with. rewrite andb_true_iff, Nat.leb_le, String.eqb_eq. split.
  - intros [Hle Hs].
    set (k := (String.length s - String.length suffix)%nat) in *.
    exists (substring 0 k s).
    transitivity (substring 0 k s ++ substring k (String.length s - k) s)%string.
    + apply substring_split. unfold k. lia.
    + f_equal. rewrite <- Hs. f_equal. unfold k. lia.
  - intros [p ->]. rewrite string_length_app. split; [lia|].
    replace (String.length p + String.length suffix - String.length suffix)%nat
      with (String.length p) by lia.
    rewrite substring_skip. apply substring_whole.
Qed.

Lemma ends_with_same_length (suffix p t : string) :
  String.length t = String.length suffix ->
  JS.ends_with suffix (p ++ t) = (t =? suffix).
Proof.
  intros Hl. destruct (t =? suffix) eqn:E.
  - apply String.eqb_eq in E. subst. apply ends_with_iff. eauto.
  - destruct (JS.ends_with suffix (p ++ t)) eqn:E'; auto.
    apply ends_with_iff in E' as [q Hq].
    apply string_app_inj_length in Hq as [_ Hq]; auto.
    subst. now rewrite String.eqb_refl in E.
Qed.

Lemma list_ascii_app (a b : string) :
  list_ascii_of_string (a ++ b) = list_ascii_of_string a ++ list_ascii_of_string b.
Proof. induction a as [|x a IH]; simpl; auto. now rewrite IH. Qed.

(** Two strings whose last characters differ are different. *)
Lemma last_char_differs (p q a b : string) (x y : ascii) :
  x <> y ->
  (p ++ a ++ String x "")%string <> (q ++ b ++ String y "")%string.
Proof.
  intros Hxy H. apply (f_equal list_ascii_of_string) in H.
  rewrite !list_ascii_app in H. simpl in H.
  rewrite !app_assoc in H. apply app_inj_tail in H as [_ H]. auto.
Qed.

Lemma strip_xlsx_of_xlsx (base : string) : JS.strip_xlsx (base ++ ".xlsx") = base.
Proof.
  unfold JS.strip_xlsx.
  rewrite ends_with_same_length by reflexivity. simpl.
  rewrite string_length_app. simpl.
  replace (String.length base + 5 - 5)%nat with (String.length base) by lia.
  apply substring_take.
Qed.

Lemma ends_with_xlsx_of_xls (base : string) :
  JS.ends_with ".xlsx" (base ++ ".xls") = false.
Proof.
  destruct (JS.ends_with ".xlsx" (base ++ ".xls")) eqn:E; auto.
  apply ends_with_iff in E as [q Hq]. exfalso.
  apply (last_char_differs base q ".xl" ".xls" "s" "x"); [discriminate|exact Hq].
Qed.

Lemma strip_xlsx_of_xls (base : string) : JS.strip_xlsx (base ++ ".xls") = base.
Proof.
  unfold JS.strip_xlsx. rewrite ends_with_xlsx_of_xls.
  rewrite ends_with_same_length by reflexivity. simpl.
  rewrite string_length_app. simpl.
  replace (String.length base + 4 - 4)%nat with (String.length base) by lia.
  apply substring_take.
Qed.

Lemma lower_app (a b : string) :
  CurrentUI.lower (a ++ b) = (CurrentUI.lower a ++ CurrentUI.lower b)%string.
Proof. induction a as [|x a IH]; simpl; auto. now rewrite IH. Qed.

Lemma lower_length (s : string) : String.length (CurrentUI.lower s) = String.length s.
Proof. induction s as [|x s IH]; simpl; auto. Qed.

(** The test of the drop area holds exactly of the names that end in
    ".xls" or ".xlsx" written in any mix of cases. *)
Lemma is_excel_name_iff (name : string) :
  CurrentUI.is_excel_name name = true <->
  exists base ext,
    name = (base ++ ext)%string
    /\ (CurrentUI.lower ext = ".xls" \/ CurrentUI.lower ext = ".xlsx").
Proof.
  unfold CurrentUI.is_excel_name. rewrite orb_true_iff. split.
  - assert (G : forall suffix,
               JS.ends_with suffix (CurrentUI.lower name) = true ->
               exists base ext, name = (base ++ ext)%string
                                /\ CurrentUI.lower ext = suffix).
    { intros suffix H.
      pose proof H as H'. unfold JS.ends_with in H'.
      apply andb_prop in H' as [Hle _]. apply Nat.leb_le in Hle.
      rewrite lower_length in Hle.
      apply ends_with_iff in H as [p Hp].
      set (k := (String.length name - String.length suffix)%nat).
      exists (substring 0 k name), (substring k (String.length suffix) name).
      assert (Hsplit : name = (substring 0 k name
                               ++ substring k (String.length suffix) name)%string).
      { transitivity (substring 0 k name
                      ++ substring k (String.length name - k) name)%string.
        - apply substring_split. unfold k. lia.
        - do 2 f_equal. unfold k. lia. }
      split; auto.
      rewrite Hsplit, lower_app in Hp.
      apply string_app_inj_length in Hp as [_ Hp]; auto.
      rewrite lower_length. apply substring_length. unfold k. lia. }
    intros [H|H]; apply G in H as (base & ext & Hn & He); eauto.
  - intros (base & ext & -> & [He|He]); [right|left];
      rewrite lower_app, <- He; apply ends_with_iff; eauto.
Qed.

End StringFacts.

Section ExcelFacts.
Variable NODE_ENV : string.

(** X13.  An upload names the company after the file when the user
    typed no name: for a file called <base>.xlsx or <base>.xls the one
    request sent carries [company_name] = <base>; a typed name is sent
    as it is. *)
Theorem upload_names_company_after_file (r : Reply string) (c : Client Current.Form)
    (file : File) (base ext : string) :
  Current.activeTab (form c) = Current.excel ->
  Current.excelFile (form c) = Some file ->
  ext = ".xlsx" \/ ext = ".xls" ->
  file_name file = (base ++ ext)%string ->
  fetched (Current.handleGenerate NODE_ENV r c)
  = fetched c ++
    [ uploadExcelFile_request (API_BASE NODE_ENV) file
        (if Current.excelCompanyName (form c) =? "" then base
         else Current.excelCompanyName (form c))
        (Current.excelIndustry (form c)) (Current.forecastYears (form c)) ].
Proof.
  intros Htab Hfile Hext Hname.
  rewrite current_handleGenerate_fetched.
  unfold Current.handleGenerate_begin. rewrite Htab, Hfile. simpl.
  assert (Hs : JS.strip_xlsx (file_name file) = base).
  { rewrite Hname. destruct Hext as [-> | ->];
      [apply strip_xlsx_of_xlsx | apply strip_xlsx_of_xls]. }
  unfold JS.str_or. rewrite Hs.
  destruct (Current.selectedStock (form c)); reflexivity.
Qed.

(** X14.  A drop installs its first file exactly when that file's name
    ends in ".xls" or ".xlsx" in any mix of upper and lower case, and
    otherwise leaves the form as it was (later files of the drop are
    ignored); the file input installs its first file whatever its
    name. *)
Theorem drop_takes_excel_names_only (file : File) (rest : list File)
    (f : Current.Form) :
  ((exists base ext,
       file_name file = (base ++ ext)%string
       /\ (CurrentUI.lower ext = ".xls" \/ CurrentUI.lower ext = ".xlsx")) ->
   CurrentUI.onDrop (file :: rest) f = Current.setExcelFile (Some file) f)
  /\ (~ (exists base ext,
            file_name file = (base ++ ext)%string
            /\ (CurrentUI.lower ext = ".xls" \/ CurrentUI.lower ext = ".xlsx")) ->
      CurrentUI.onDrop (file :: rest) f = f)
  /\ CurrentUI.onFileInput (file :: rest) f = Current.setExcelFile (Some file) f
  /\ CurrentUI.onDrop [] f = f.
Proof.
  simpl. repeat split.
  - intros H. apply is_excel_name_iff in H. now rewrite H.
  - intros H. destruct (CurrentUI.is_excel_name (file_name file)) eqn:E; auto.
    apply is_excel_name_iff in E. contradiction.
Qed.

(** X15.  The drop area ignores the case of the extension, the default
    company name does not: a dropped file called <base>.XLSX is
    accepted, and with no company name typed its upload sends
    [company_name] = <base>.XLSX, extension included. *)
Theorem upper_case_extension_stays (r : Reply string) (c : Client Current.Form)
    (file : File) (base : string) :
  file_name file = (base ++ ".XLSX")%string ->
  Current.activeTab (form c) = Current.excel ->
  Current.excelCompanyName (form c) = "" ->
  let f' := CurrentUI.onDrop [file] (form c) in
  Current.excelFile f' = Some file
  /\ fetched (Current.handleGenerate NODE_ENV r (setForm f' c))
     = fetched c ++
       [ uploadExcelFile_request (API_BASE NODE_ENV) file (base ++ ".XLSX")
           (Current.excelIndustry (form c)) (Current.forecastYears (form c)) ].
Proof.
  intros Hname Htab Hco f'.
  assert (Hacc : CurrentUI.is_excel_name (file_name file) = true).
  { apply is_excel_name_iff. exists base, ".XLSX". auto. }
  assert (Hf : f' = Current.setExcelFile (Some file) (form c)).
  { unfold f', CurrentUI.onDrop. now rewrite Hacc. }
  assert (Hs : JS.strip_xlsx (file_name file) = file_name file).
  { unfold JS.strip_xlsx. rewrite Hname.
    rewrite ends_with_same_length by reflexivity. simpl.
    destruct (JS.ends_with ".xls" (base ++ ".XLSX")) eqn:E; auto.
    apply ends_with_iff in E as [q Hq]. exfalso.
    apply (last_char_differs base q ".XLS" ".xl" "X" "s"); [discriminate|exact Hq]. }
  rewrite Hf. split; [reflexivity|].
  rewrite current_handleGenerate_fetched.
  unfold Current.handleGenerate_begin. simpl. rewrite Htab, Hco. simpl.
  rewrite Hs, Hname.
  destruct (Current.selectedStock (form c)); reflexivity.
Qed.

End ExcelFacts.

Lemma upload_names_company_after_file_example :
  fetched (Current.handleGenerate "production" (Ok "j7") Sample2.excel_ready)
  = [ uploadExcelFile_request (API_BASE "production") Sample2.report "acme" "general" 5 ].
Proof.
  exact (upload_names_company_after_file "production" (Ok "j7") Sample2.excel_ready
           Sample2.report "acme" ".xlsx" eq_refl eq_refl (or_introl eq_refl) eq_refl).
Defined.

Lemma drop_takes_excel_names_only_example :
  CurrentUI.onDrop [Sample2.shouting] Current.initial_form
  = Current.setExcelFile (Some Sample2.shouting) Current.initial_form.
Proof.
  apply (proj1 (drop_takes_excel_names_only Sample2.shouting [] Current.initial_form)).
  exists "ACME", ".XLSX". split; [reflexivity|right; reflexivity].
Defined.

Lemma upper_case_extension_stays_example :
  fetched (Current.handleGenerate "production" (Ok "j7")
             (setForm (CurrentUI.onDrop [Sample2.shouting]
                         (Current.setActiveTab Current.excel Current.initial_form))
                (mount (Current.setActiveTab Current.excel Current.initial_form))))
  = [ uploadExcelFile_request (API_BASE "production") Sample2.shouting "ACME.XLSX" "general" 5 ].
Proof.
  exact (proj2 (upper_case_extension_stays "production" (Ok "j7")
                  (mount (Current.setActiveTab Current.excel Current.initial_form))
                  Sample2.shouting "ACME" eq_refl eq_refl eq_refl)).
Defined.

(** ** The company name of a raw submission *)

Section StripFacts.

Variable w2 : ascii -> ascii -> bool.
Variable w3 : ascii -> ascii -> ascii -> bool.

Lemma strip_white_nil_bounded (n : nat) :
  forall l, length l <= n ->
  (JS.strip_white w2 w3 l = [] <-> JS.all_white w2 w3 l = true).
Proof.
  induction n as [|n IH]; intros l Hl.
  - destruct l; simpl in *; [tauto|lia].
  - destruct l as [|a r]; [simpl; tauto|]. simpl in Hl. simpl.
    destruct (JS.white1 a); [apply IH; lia|].
    destruct r as [|b r2]; [split; discriminate|]. simpl in Hl.
    destruct (w2 a b); [apply IH; lia|].
    destruct r2 as [|c r3]; [split; discriminate|]. simpl in Hl.
    destruct (w3 a b c); simpl; [apply IH; lia|split; discriminate].
Qed.

Lemma strip_white_nil_iff (l : list ascii) :
  JS.strip_white w2 w3 l = [] <-> JS.all_white w2 w3 l = true.
Proof. apply (strip_white_nil_bounded (length l)). lia. Qed.

Lemma strip_white_idem_bounded (n : nat) :
  forall l, length l <= n ->
  JS.strip_white w2 w3 (JS.strip_white w2 w3 l) = JS.strip_white w2 w3 l.
Proof.
  induction n as [|n IH]; intros l Hl.
  - destruct l; simpl in *; [reflexivity|lia].
  - destruct l as [|a r]; [reflexivity|]. simpl in Hl.
    change (JS.strip_white w2 w3 (a :: r))
      with (if JS.white1 a then JS.strip_white w2 w3 r
            else match r with
                 | b :: r2 =>
                     if w2 a b then JS.strip_white w2 w3 r2
                     else match r2 with
                          | c :: r3 =>
                              if w3 a b c then JS.strip_white w2 w3 r3 else a :: r
                          | [] => a :: r
                          end
                 | [] => a :: r
                 end).
    destruct (JS.white1 a) eqn:E1; [apply IH; lia|].
    destruct r as [|b r2]; [simpl; now rewrite E1|]. simpl in Hl.
    destruct (w2 a b) eqn:E2; [apply IH; lia|].
    destruct r2 as [|c r3]; [simpl; now rewrite E1, E2|]. simpl in Hl.
    destruct (w3 a b c) eqn:E3; [apply IH; lia|].
    simpl. now rewrite E1, E2, E3.
Qed.

Lemma strip_white_idem (l : list ascii) :
  JS.strip_white w2 w3 (JS.strip_white w2 w3 l) = JS.strip_white w2 w3 l.
Proof. apply (strip_white_idem_bounded (length l)). lia. Qed.

Lemma all_white_app_bounded (n : nat) :
  forall l1 l2, length l1 <= n ->
  JS.all_white w2 w3 l1 = true ->
  JS.all_white w2 w3 (l1 ++ l2) = JS.all_white w2 w3 l2.
Proof.
  induction n as [|n IH]; intros l1 l2 Hl H.
  - destruct l1; simpl in *; [reflexivity|lia].
  - destruct l1 as [|a r]; [reflexivity|]. simpl in Hl.
    simpl in H. rewrite <- app_comm_cons.
    change (JS.all_white w2 w3 (a :: r ++ l2))
      with (if JS.white1 a then JS.all_white w2 w3 (r ++ l2)
            else match r ++ l2 with
                 | b :: r2 =>
                     if w2 a b then JS.all_white w2 w3 r2
                     else match r2 with
                          | c :: r3 => w3 a b c && JS.all_white w2 w3 r3
                          | [] => false
                          end
                 | [] => false
                 end).
    destruct (JS.white1 a) eqn:E1; [apply IH; [lia|exact H]|].
    destruct r as [|b r2]; [discriminate|]. simpl in Hl.
    rewrite <- app_comm_cons.
    destruct (w2 a b) eqn:E2; [apply IH; [lia|exact H]|].
    destruct r2 as [|c r3]; [discriminate|]. simpl in Hl.
    rewrite <- app_comm_cons.
    apply andb_prop in H. destruct H as [E3 H]. rewrite E3.
    apply IH; [lia|exact H].
Qed.

Lemma all_white_app (l1 l2 : list ascii) :
  JS.all_white w2 w3 l1 = true ->
  JS.all_white w2 w3 (l1 ++ l2) = JS.all_white w2 w3 l2.
Proof. apply (all_white_app_bounded (length l1)). lia. Qed.

End StripFacts.

Section ReverseFacts.

Variable w2 : ascii -> ascii -> bool.
Variable w3 : ascii -> ascii -> ascii -> bool.

(** No encoding of two or three bytes ends in a byte, or in two bytes,
    that are white space read backwards. *)
Hypothesis last_of_two : forall a b, w2 a b = true -> JS.white1 b = false.
Hypothesis last_of_three :
  forall a b c, w3 a b c = true -> JS.white1 c = false /\ w2 b c = false.

Lemma all_white_rev_bounded (n : nat) :
  forall l, length l <= n ->
  JS.all_white w2 w3 l = true ->
  JS.all_white (fun b a => w2 a b) (fun c b a => w3 a b c) (rev l) = true.
Proof.
  induction n as [|n IH]; intros l Hl H.
  - destruct l; simpl in *; [reflexivity|lia].
  - destruct l as [|a r]; [reflexivity|]. simpl in Hl.
    simpl in H. destruct (JS.white1 a) eqn:E1.
    + simpl. rewrite all_white_app by (apply IH; [lia|exact H]).
      simpl. now rewrite E1.
    + destruct r as [|b r2]; [discriminate|]. simpl in Hl.
      destruct (w2 a b) eqn:E2.
      * simpl. rewrite <- app_assoc.
        rewrite all_white_app by (apply IH; [lia|exact H]).
        simpl. now rewrite (last_of_two _ _ E2), E2.
      * destruct r2 as [|c r3]; [discriminate|]. simpl in Hl.
        apply andb_prop in H. destruct H as [E3 H].
        simpl. rewrite <- !app_assoc.
        rewrite all_white_app by (apply IH; [lia|exact H]).
        destruct (last_of_three _ _ _ E3) as [Ec Ebc].
        simpl. now rewrite Ec, Ebc, E3.
Qed.

Lemma all_white_rev (l : list ascii) :
  JS.all_white w2 w3 l = true ->
  JS.all_white (fun b a => w2 a b) (fun c b a => w3 a b c) (rev l) = true.
Proof. apply (all_white_rev_bounded (length l)). lia. Qed.

End ReverseFacts.

Section TrimFacts.

Ltac bytes :=
  unfold JS.white3_back, JS.white2_back, JS.white1, JS.white2, JS.white3 in *;
  cbv zeta in *;
  repeat match goal with
         | |- _ /\ _ => split
         | |- _ = false => apply Bool.not_true_is_false; intro
         end;
  repeat first [ rewrite Bool.andb_true_iff in *
               | rewrite Bool.orb_true_iff in *
               | rewrite Nat.eqb_eq in *
               | rewrite Nat.leb_le in * ];
  lia.

Lemma white2_last (a b : ascii) : JS.white2 a b = true -> JS.white1 b = false.
Proof. intros H. bytes. Qed.

Lemma white3_last (a b c : ascii) :
  JS.white3 a b c = true -> JS.white1 c = false /\ JS.white2 b c = false.
Proof. intros H. bytes. Qed.

Lemma white2_first (b a : ascii) :
  JS.white2_back b a = true -> JS.white1 a = false.
Proof. intros H. bytes. Qed.

Lemma white3_first (c b a : ascii) :
  JS.white3_back c b a = true -> JS.white1 a = false /\ JS.white2_back b a = false.
Proof. intros H. bytes. Qed.

(** Read backwards, a sequence is white space exactly when it is read
    forwards. *)
Lemma all_white_back (l : list ascii) :
  JS.all_white JS.white2_back JS.white3_back (rev l) = true
  <-> JS.all_white JS.white2 JS.white3 l = true.
Proof.
  split; intros H.
  - apply (all_white_rev JS.white2_back JS.white3_back white2_first white3_first) in H.
    rewrite rev_involutive in H. exact H.
  - exact (all_white_rev JS.white2 JS.white3 white2_last white3_last l H).
Qed.

(** Trimming leaves nothing exactly of the strings made of white space. *)
Lemma trim_empty_iff (s : string) :
  JS.trim s = "" <-> OlderUI.all_whitespace s = true.
Proof.
  unfold JS.trim, JS.trim_end, JS.trim_start, OlderUI.all_whitespace.
  set (l := list_ascii_of_string s). split.
  - intros H. apply (f_equal list_ascii_of_string) in H.
    rewrite list_ascii_of_string_of_list_ascii in H. simpl in H.
    apply (f_equal (@rev ascii)) in H. rewrite rev_involutive in H. simpl in H.
    apply strip_white_nil_iff, all_white_back, strip_white_nil_iff in H.
    rewrite strip_white_idem in H. now apply strip_white_nil_iff.
  - intros H. apply strip_white_nil_iff in H. rewrite H. reflexivity.
Qed.

End TrimFacts.

(** X16.  On the "raw" tab of the older page a company name that
    consists of white space (the characters [String.prototype.trim]
    strips, the no-break space and the other Unicode spaces included)
    counts as missing: the click changes nothing and sends nothing.
    Any other name passes, and the one request sent is a POST to the
    bare path "/api/model/generate-raw" that carries the raw data with
    the name exactly as typed, surrounding white space included. *)
Theorem blank_company_name_is_missing (r : Reply string) (c : Client Older.Form) :
  Older.activeTab (form c) = Older.raw ->
  (OlderUI.all_whitespace (Older.raw_company_name (Older.rawData (form c))) = true ->
   Older.handleGenerate r c = c)
  /\ (OlderUI.all_whitespace (Older.raw_company_name (Older.rawData (form c))) = false ->
      fetched (Older.handleGenerate r c)
      = fetched c ++
        [ {| method := POST;
             url := "/api/model/generate-raw";
             headers := json_headers;
             body :=
               JsonBody
                 (JObj [("company_name",
                         JStr (Older.raw_company_name (Older.rawData (form c))));
                        ("industry", JStr (Older.raw_industry (Older.rawData (form c))));
                        ("forecast_years",
                         JInt (Older.forecast_years (Older.rawData (form c))));
                        ("historical_data", Older.historical_data (Older.rawData (form c)));
                        ("assumptions", Older.assumptions (Older.rawData (form c)))]) |} ]).
Proof.
  intros Htab. split; intros Hw.
  - apply trim_empty_iff in Hw.
    unfold Older.handleGenerate, Older.handleGenerate_begin.
    rewrite Htab, Hw. simpl. apply commit_same.
  - rewrite older_handleGenerate_fetched.
    unfold Older.handleGenerate_begin. rewrite Htab. simpl.
    destruct (JS.trim _ =? "") eqn:E.
    + apply String.eqb_eq, trim_empty_iff in E. congruence.
    + reflexivity.
Qed.

Lemma blank_company_name_is_missing_example :
  Older.handleGenerate (Ok "j1") Sample2.raw_blank = Sample2.raw_blank
  /\ map url (fetched (Older.handleGenerate (Ok "j1") Sample2.raw_padded))
     = ["/api/model/generate-raw"].
Proof.
  split.
  - exact (proj1 (blank_company_name_is_missing (Ok "j1")
                    Sample2.raw_blank eq_refl) eq_refl).
  - rewrite (proj2 (blank_company_name_is_missing (Ok "j1")
                      Sample2.raw_padded eq_refl) eq_refl).
    reflexivity.
Defined.
